(** * manageDoc: the document-management Lambda handler

    A shallow embedding of [src/lambda_functions/manageDoc/index.js]:
    the multipart form decoder ([extractFileFromForm]), the upload, list
    and download flows and the action router ([handler]), over an
    in-memory model of the object store the handler talks to. *)

From Stdlib Require Import Strings.Ascii Strings.Byte.
From stdpp Require Import gmap strings list pretty.

Set Default Proof Using "Type".

(** ** JavaScript strings and values

    A JS string is modelled as a [string] of 8-bit characters; the
    operations below are the ones [index.js] calls. *)
Module Js.

(** [a || b] where [a] is a string or [undefined]: the empty string and
    [undefined] are falsy. *)
Definition or_else (a b : option string) : option string :=
  match a with
  | Some (String _ _) => a
  | _ => b
  end.

(** [a || 'literal']. *)
Definition or_default (a : option string) (d : string) : string :=
  match a with
  | Some (String c s) => String c s
  | _ => d
  end.

(** [!a]. *)
Definition falsy (a : option string) : bool :=
  match a with
  | Some (String _ _) => false
  | _ => true
  end.

(** [s.split(sep)] for a one-character separator. *)
Fixpoint split (sep : ascii) (s : string) : list string :=
  match s with
  | EmptyString => [EmptyString]
  | String c s' =>
      if Ascii.eqb c sep then EmptyString :: split sep s'
      else match split sep s' with
           | seg :: rest => String c seg :: rest
           | [] => [String c EmptyString]
           end
  end.

(** [arr.pop()] as a value, on the arrays [split] returns (they are never
    empty, see [split_nonempty]). *)
Definition pop (arr : list string) : string := List.last arr EmptyString.

Definition lower_char (c : ascii) : ascii :=
  let n := N_of_ascii c in
  if (65 <=? n)%N && (n <=? 90)%N then ascii_of_N (n + 32) else c.

(** [s.toLowerCase()], on the ASCII letters. *)
Fixpoint toLowerCase (s : string) : string :=
  match s with
  | EmptyString => EmptyString
  | String c s' => String (lower_char c) (toLowerCase s')
  end.

(** [s.includes(sub)]. *)
Fixpoint includes (sub s : string) : bool :=
  String.prefix sub s ||
  match s with
  | EmptyString => false
  | String _ s' => includes sub s'
  end.

(** [arr.includes(x)] on an array of strings. *)
Definition arr_includes (arr : list string) (x : string) : bool :=
  existsb (String.eqb x) arr.

(** Property read [obj.k] / [obj[k]] on an object literal kept as an
    association list in insertion order. *)
Fixpoint prop (k : string) (obj : list (string * string)) : option string :=
  match obj with
  | [] => None
  | (k', v) :: obj' => if String.eqb k k' then Some v else prop k obj'
  end.

End Js.

(** ** Base64, as [Buffer.toString('base64')] and [Buffer.from(s, 'base64')] *)
Module Base64.

(** A sextet, most significant bit first. *)
Definition sextet : Type := bool * bool * bool * bool * bool * bool.

Definition N_of_sextet (x : sextet) : N :=
  let '(b5, b4, b3, b2, b1, b0) := x in
  (N.b2n b0 + 2 * (N.b2n b1 + 2 * (N.b2n b2 + 2 * (N.b2n b3 +
    2 * (N.b2n b4 + 2 * N.b2n b5)))))%N.

Definition sextet_of_N (n : N) : sextet :=
  (N.testbit n 5, N.testbit n 4, N.testbit n 3,
   N.testbit n 2, N.testbit n 1, N.testbit n 0).

(** The alphabet A-Z a-z 0-9 + / . *)
Definition char_of_sextet (x : sextet) : ascii :=
  let n := N_of_sextet x in
  if (n <? 26)%N then ascii_of_N (n + 65)
  else if (n <? 52)%N then ascii_of_N (n - 26 + 97)
  else if (n <? 62)%N then ascii_of_N (n - 52 + 48)
  else if (n =? 62)%N then "+"%char else "/"%char.

(** Decoding also reads [-] and [_], the letters 62 and 63 of the URL-safe
    alphabet. *)
Definition sextet_of_char (c : ascii) : option sextet :=
  let n := N_of_ascii c in
  if (65 <=? n)%N && (n <=? 90)%N then Some (sextet_of_N (n - 65))
  else if (97 <=? n)%N && (n <=? 122)%N then Some (sextet_of_N (n - 97 + 26))
  else if (48 <=? n)%N && (n <=? 57)%N then Some (sextet_of_N (n - 48 + 52))
  else if (n =? 43)%N || (n =? 45)%N then Some (sextet_of_N 62)
  else if (n =? 47)%N || (n =? 95)%N then Some (sextet_of_N 63)
  else None.

(** Three bytes are four sextets. [Byte.to_bits] is least significant
    bit first. *)
Definition sextets3 (a b c : byte) : list sextet :=
  let '(a0, (a1, (a2, (a3, (a4, (a5, (a6, a7))))))) := Byte.to_bits a in
  let '(b0, (b1, (b2, (b3, (b4, (b5, (b6, b7))))))) := Byte.to_bits b in
  let '(c0, (c1, (c2, (c3, (c4, (c5, (c6, c7))))))) := Byte.to_bits c in
  [ (a7, a6, a5, a4, a3, a2); (a1, a0, b7, b6, b5, b4);
    (b3, b2, b1, b0, c7, c6); (c5, c4, c3, c2, c1, c0) ].

Definition byte1 (x y : sextet) : byte :=
  let '(x5, x4, x3, x2, x1, x0) := x in
  let '(y5, y4, _, _, _, _) := y in
  Byte.of_bits (y4, (y5, (x0, (x1, (x2, (x3, (x4, x5))))))).

Definition byte2 (y z : sextet) : byte :=
  let '(_, _, y3, y2, y1, y0) := y in
  let '(z5, z4, z3, z2, _, _) := z in
  Byte.of_bits (z2, (z3, (z4, (z5, (y0, (y1, (y2, y3))))))).

Definition byte3 (z t : sextet) : byte :=
  let '(_, _, _, _, z1, z0) := z in
  let '(t5, t4, t3, t2, t1, t0) := t in
  Byte.of_bits (t0, (t1, (t2, (t3, (t4, (t5, (z0, z1))))))).

Definition string_of_sextets (l : list sextet) : string :=
  fold_right (fun x s => String (char_of_sextet x) s) EmptyString l.

(** [buf.toString('base64')]: groups of three bytes, the last group padded
    with [=]. *)
Fixpoint encode (buf : list byte) : string :=
  match buf with
  | [] => EmptyString
  | [a] =>
      string_of_sextets (take 2 (sextets3 a "000"%byte "000"%byte)) +:+ "=="
  | [a; b] =>
      string_of_sextets (take 3 (sextets3 a b "000"%byte)) +:+ "="
  | a :: b :: c :: rest =>
      string_of_sextets (sextets3 a b c) +:+ encode rest
  end.

(** The sextets of a text up to its first [=]; characters outside the
    alphabet are skipped. *)
Fixpoint sextets_of_string (s : string) : list sextet :=
  match s with
  | EmptyString => []
  | String c s' =>
      if Ascii.eqb c "="%char then []
      else match sextet_of_char c with
           | Some x => x :: sextets_of_string s'
           | None => sextets_of_string s'
           end
  end.

Fixpoint bytes_of_sextets (l : list sextet) : list byte :=
  match l with
  | x :: y :: z :: t :: rest =>
      byte1 x y :: byte2 y z :: byte3 z t :: bytes_of_sextets rest
  | [x; y; z] => [byte1 x y; byte2 y z]
  | [x; y] => [byte1 x y]
  | _ => []
  end.

(** [Buffer.from(s, 'base64')]. *)
Definition decode (s : string) : list byte :=
  bytes_of_sextets (sextets_of_string s).

End Base64.

(** ** Values, requests and responses *)

(** A JS [Error]: its [name] and [message]. *)
Record js_error := Error { err_name : string; err_message : string }.

Definition new_Error (message : string) : js_error :=
  {| err_name := "Error"; err_message := message |}.

(** [Buffer.from(null)]. *)
Definition Buffer_from_TypeError : js_error :=
  {| err_name := "TypeError";
     err_message := "The first argument must be of type string or an instance of Buffer, ArrayBuffer, or Array or an Array-like Object. Received null" |}.

(** The values handed to [JSON.stringify]. *)
Unset Elimination Schemes.
Inductive js_value :=
| JStr (s : string)
| JNum (n : N)
| JBool (b : bool)
| JDate (ms : N)
| JArr (items : list js_value)
| JObj (props : list (string * js_value)).
Set Elimination Schemes.

(** A response body: [JSON.stringify(v)], or a plain string. *)
Inductive http_body :=
| JSON_stringify (v : js_value)
| Raw (s : string).

(** The request envelope as the flows receive it from the router, which
    has read its [headers] object before it calls them.
    [queryStringParameters] and [body] may be null (the code reads them
    with [?.] and a truthiness test). *)
Record event := {
  httpMethod : string;
  queryStringParameters : option (gmap string string);
  headers : gmap string string;
  body : option string;
  isBase64Encoded : bool
}.

Record response := {
  statusCode : Z;
  res_headers : gmap string string;
  res_body : http_body;
  res_isBase64Encoded : option bool
}.

Definition ALLOWED_EXTENSIONS : list string :=
  [".docx"; ".pdf"; ".jpg"; ".png"; ".jpeg"; ".txt"; ".xlsx"].

Definition getCorsHeaders : gmap string string :=
  <["Access-Control-Allow-Origin" := "*"]>
  (<["Access-Control-Allow-Methods" := "GET, POST, PUT, DELETE, OPTIONS"]>
  (<["Access-Control-Allow-Headers" :=
      "Content-Type,X-Amz-Date,Authorization,X-Api-Key,X-Requested-With,Accept"]>
  (<["Access-Control-Allow-Credentials" := "true"]>
  (<["Access-Control-Max-Age" := "86400"]> ∅)))).

(** ** The object store *)

Record s3_object := {
  obj_Body : list byte;
  obj_ContentType : option string;
  obj_Metadata : option (list (string * string));
  obj_LastModified : N
}.

(** The commands [index.js] sends (the bucket is the one of [BUCKET_NAME]). *)
Inductive s3_command :=
| PutObjectCommand (Key : string) (Body : list byte) (ContentType : string)
    (Metadata : list (string * string))
| GetObjectCommand (Key : string)
| ListObjectsV2Command (Prefix : string).

(** What a flow can see and change: the bucket, the clock behind
    [Date.now()], and the commands sent so far (oldest first). *)
Record world := {
  bucket : gmap string s3_object;
  clock : N;
  sent : list s3_command
}.

Record GetObjectOutput := {
  Body : list (list byte);
  ContentType : option string;
  Metadata : option (list (string * string))
}.

Record ListItem := { Key : string; Size : N; LastModified : N }.

Record ListObjectsV2Output := { Contents : option (list ListItem) }.

Definition NoSuchKey : js_error :=
  {| err_name := "NoSuchKey"; err_message := "The specified key does not exist." |}.

(** ** The multipart parser's events *)

(** What the Busboy instance emits to the listeners [index.js] registers: a
    ['file'] event opens the file stream [stream], whose ['data'] and
    ['end'] events follow; ['field'], ['finish'] and ['error'] are the
    parser's own. [index.js] registers no ['error'] listener on a file
    stream: an error emitted on an open file stream is outside these
    events, and the answer of the upload flow to a parser's error is stated
    for a parser that has opened no file stream. The filename of a ['file']
    event is a string: a file part without filename is outside these events
    too. *)
Inductive bb_event :=
| EvFile (stream : nat) (fieldname filename encoding mimetype : string)
| EvData (stream : nat) (data : list byte)
| EvEnd (stream : nat)
| EvField (fieldname val : string)
| EvFinish
| EvError (error : js_error).

(** ** The runtime the handler runs in *)

(** The parts of the runtime the handler's result depends on and that are
    not its own code:
    - [Busboy contentType] is [new Busboy({ headers })]: it throws, or
      gives a parser, that is the events emitted for the buffer written;
    - [s3_fault c] is the failure, if any, with which the store answers
      the command [c];
    - [meta_name k] is the name under which the store keeps and returns
      the user metadata entry sent as [k]. *)
Class Runtime := {
  Busboy : string -> js_error + (list byte -> list bb_event);
  s3_fault : s3_command -> option js_error;
  meta_name : string -> string
}.

(** ** Asynchronous computations *)

(** An [await]ed computation returns, throws, or never settles. *)
Inductive outcome (A : Type) :=
| Returned (a : A)
| Thrown (e : js_error)
| Pending.
Arguments Returned {A} a.
Arguments Thrown {A} e.
Arguments Pending {A}.

Definition Async (A : Type) : Type := world -> outcome A * world.

Global Instance Async_ret : MRet Async := fun A a w => (Returned a, w).

Global Instance Async_bind : MBind Async := fun A B k m w =>
  match m w with
  | (Returned a, w') => k a w'
  | (Thrown e, w') => (Thrown e, w')
  | (Pending, w') => (Pending, w')
  end.

(** [try { m } catch (error) { h error }]. *)
Definition try_catch {A} (m : Async A) (h : js_error -> Async A) : Async A :=
  fun w =>
    match m w with
    | (Thrown e, w') => h e w'
    | r => r
    end.

(** [await p] for a promise that touches nothing of the world. *)
Definition await {A} (p : outcome A) : Async A := fun w => (p, w).

Definition Date_now : Async N := fun w => (Returned (clock w), w).

(** ** The multipart decoder: [extractFileFromForm] *)

(** The object the promise resolves with. *)
Record form := {
  fileData : list byte;
  fileName : string;
  fileType : string;
  documentValueCode : string;
  documentValueTypeCode : string
}.

(** The variables the event handlers close over: [fileData] (null until a
    file stream ends), [fileName], [fileType], the two [formFields], the
    [chunks] array of each file stream whose handlers were registered, and
    the promise. *)
Record decoder := {
  d_fileData : option (list byte);
  d_fileName : string;
  d_fileType : string;
  d_documentValueCode : string;
  d_documentValueTypeCode : string;
  d_chunks : gmap nat (list (list byte));
  d_promise : outcome form
}.

Definition decoder_init : decoder :=
  {| d_fileData := None; d_fileName := ""; d_fileType := "";
     d_documentValueCode := ""; d_documentValueTypeCode := "";
     d_chunks := ∅; d_promise := Pending |}.

(** [resolve(v)] and [reject(e)]: only the first settles the promise. *)
Definition settle (o : outcome form) (d : decoder) : decoder :=
  match d_promise d with
  | Pending =>
      {| d_fileData := d_fileData d; d_fileName := d_fileName d;
         d_fileType := d_fileType d;
         d_documentValueCode := d_documentValueCode d;
         d_documentValueTypeCode := d_documentValueTypeCode d;
         d_chunks := d_chunks d; d_promise := o |}
  | _ => d
  end.

(** The handlers registered with [bb.on] and [fileStream.on]. *)
Definition on_event (d : decoder) (ev : bb_event) : decoder :=
  match ev with
  | EvFile stream _ filename _ mimetype =>
      {| d_fileData := d_fileData d; d_fileName := filename;
         d_fileType := mimetype;
         d_documentValueCode := d_documentValueCode d;
         d_documentValueTypeCode := d_documentValueTypeCode d;
         d_chunks := <[stream := []]> (d_chunks d); d_promise := d_promise d |}
  | EvData stream data =>
      match d_chunks d !! stream with
      | Some chunks =>
          {| d_fileData := d_fileData d; d_fileName := d_fileName d;
             d_fileType := d_fileType d;
             d_documentValueCode := d_documentValueCode d;
             d_documentValueTypeCode := d_documentValueTypeCode d;
             d_chunks := <[stream := chunks ++ [data]]> (d_chunks d);
             d_promise := d_promise d |}
      | None => d
      end
  | EvEnd stream =>
      match d_chunks d !! stream with
      | Some chunks =>
          {| d_fileData := Some (concat chunks); d_fileName := d_fileName d;
             d_fileType := d_fileType d;
             d_documentValueCode := d_documentValueCode d;
             d_documentValueTypeCode := d_documentValueTypeCode d;
             d_chunks := d_chunks d; d_promise := d_promise d |}
      | None => d
      end
  | EvField fieldname val =>
      if String.eqb fieldname "documentValueCode" then
        {| d_fileData := d_fileData d; d_fileName := d_fileName d;
           d_fileType := d_fileType d;
           d_documentValueCode := val;
           d_documentValueTypeCode := d_documentValueTypeCode d;
           d_chunks := d_chunks d; d_promise := d_promise d |}
      else if String.eqb fieldname "documentValueTypeCode" then
        {| d_fileData := d_fileData d; d_fileName := d_fileName d;
           d_fileType := d_fileType d;
           d_documentValueCode := d_documentValueCode d;
           d_documentValueTypeCode := val;
           d_chunks := d_chunks d; d_promise := d_promise d |}
      else d
  | EvFinish =>
      match d_fileData d with
      | None => settle (Thrown (new_Error "No file found in form data")) d
      | Some data =>
          settle (Returned
            {| fileData := data; fileName := d_fileName d;
               fileType := d_fileType d;
               documentValueCode := d_documentValueCode d;
               documentValueTypeCode := d_documentValueTypeCode d |}) d
      end
  | EvError error => settle (Thrown error) d
  end.

(** The decoder after the parser emitted [trace]. *)
Definition run_handlers (trace : list bb_event) : decoder :=
  fold_left on_event trace decoder_init.

Definition extractFileFromForm `{!Runtime} (event : event) : outcome form :=
  let contentType :=
    Js.or_else (headers event !! "content-type") (headers event !! "Content-Type") in
  match contentType with
  | Some (String c ct) =>
      let contentType := String c ct in
      if negb (Js.includes "multipart/form-data" contentType) then
        Thrown (new_Error "Not a multipart/form-data request")
      else
        match Busboy contentType with
        | inl error => Thrown error
        | inr bb =>
            match body event with
            | None => Thrown Buffer_from_TypeError
            | Some text =>
                let buffer :=
                  if isBase64Encoded event then Base64.decode text
                  else String.list_byte_of_string text in
                d_promise (run_handlers (bb buffer))
            end
        end
  | _ => Thrown (new_Error "Not a multipart/form-data request")
  end.

(** A multipart body as the sequence of its parts, and the events a parser
    emits for it when it handles one part after the other. A parser that
    is written the whole body at once may emit the ['data'] and ['end'] of a
    file stream after the events of the parts that follow it; what is proved
    of bodies with parts after a file part is therefore stated over event
    traces, not over these. *)
Inductive form_part :=
| FilePart (fieldname filename encoding mimetype : string)
    (chunks : list (list byte))
| FieldPart (fieldname val : string).

Definition is_file_part (p : form_part) : bool :=
  match p with FilePart _ _ _ _ _ => true | FieldPart _ _ => false end.

Fixpoint events_of_parts (stream : nat) (parts : list form_part)
  : list bb_event :=
  match parts with
  | [] => [EvFinish]
  | FilePart fieldname filename encoding mimetype chunks :: parts' =>
      EvFile stream fieldname filename encoding mimetype
        :: map (EvData stream) chunks
        ++ EvEnd stream :: events_of_parts (S stream) parts'
  | FieldPart fieldname val :: parts' =>
      EvField fieldname val :: events_of_parts stream parts'
  end.

(** ** The store gateway: [s3Client.send] *)

Definition log_sent (c : s3_command) (w : world) : world :=
  {| bucket := bucket w; clock := clock w; sent := sent w ++ [c] |}.

Definition send_PutObject `{!Runtime} (Key : string) (Body : list byte)
    (ContentType : string) (Metadata : list (string * string)) : Async unit :=
  fun w =>
    let c := PutObjectCommand Key Body ContentType Metadata in
    let w := log_sent c w in
    match s3_fault c with
    | Some error => (Thrown error, w)
    | None =>
        let object :=
          {| obj_Body := Body; obj_ContentType := Some ContentType;
             obj_Metadata :=
               Some (map (fun kv => (meta_name kv.1, kv.2)) Metadata);
             obj_LastModified := clock w |} in
        (Returned tt,
         {| bucket := <[Key := object]> (bucket w); clock := clock w;
            sent := sent w |})
    end.

(** The object's bytes as the stream [response.Body] yields them. *)
Definition stream_of (data : list byte) : list (list byte) :=
  match data with [] => [] | _ => [data] end.

Definition send_GetObject `{!Runtime} (Key : string) : Async GetObjectOutput :=
  fun w =>
    let c := GetObjectCommand Key in
    let w := log_sent c w in
    match s3_fault c with
    | Some error => (Thrown error, w)
    | None =>
        match bucket w !! Key with
        | None => (Thrown NoSuchKey, w)
        | Some object =>
            (Returned {| Body := stream_of (obj_Body object);
                         ContentType := obj_ContentType object;
                         Metadata := obj_Metadata object |}, w)
        end
    end.

Definition item_of (entry : string * s3_object) : ListItem :=
  {| Key := entry.1; Size := N.of_nat (length (obj_Body entry.2));
     LastModified := obj_LastModified entry.2 |}.

(** One page of at most 1000 keys; [Contents] is absent when no key
    matches. *)
Definition send_ListObjectsV2 `{!Runtime} (Prefix : string)
  : Async ListObjectsV2Output :=
  fun w =>
    let c := ListObjectsV2Command Prefix in
    let w := log_sent c w in
    match s3_fault c with
    | Some error => (Thrown error, w)
    | None =>
        let items :=
          take 1000 (map item_of
            (filter (fun entry => String.prefix Prefix entry.1 = true)
               (map_to_list (bucket w)))) in
        (Returned {| Contents := match items with [] => None | _ => Some items end |}, w)
    end.

(** ** The flows *)

(** [`.${fileName.split('.').pop().toLowerCase()}`]. *)
Definition fileExtension_of (fileName : string) : string :=
  "." +:+ Js.toLowerCase (Js.pop (Js.split "." fileName)).

(** The [switch (fileExtension.toLowerCase())] of [uploadFile], starting
    from [contentType = fileType]. *)
Definition contentType_of (fileExtension fileType : string) : string :=
  let ext := Js.toLowerCase fileExtension in
  if String.eqb ext ".pdf" then "application/pdf"
  else if String.eqb ext ".docx" then
    "application/vnd.openxmlformats-officedocument.wordprocessingml.document"
  else if String.eqb ext ".xlsx" then
    "application/vnd.openxmlformats-officedocument.spreadsheetml.sheet"
  else if String.eqb ext ".txt" then "text/plain"
  else if String.eqb ext ".jpg" then "image/jpeg"
  else if String.eqb ext ".jpeg" then "image/jpeg"
  else if String.eqb ext ".png" then "image/png"
  else fileType.

(** [`documents/${Date.now()}-${fileName}`]. *)
Definition key_of (now : N) (fileName : string) : string :=
  "documents/" +:+ pretty now +:+ "-" +:+ fileName.

Definition upload_metadata (f : form) : list (string * string) :=
  [ ("documentValueCode", Js.or_default (Some (documentValueCode f)) "NA");
    ("documentValueTypeCode", Js.or_default (Some (documentValueTypeCode f)) "NA") ].

Definition uploadFile `{!Runtime} (event : event) (headers : gmap string string)
  : Async response :=
  try_catch
    (f ← await (extractFileFromForm event);
     let fileExtension := fileExtension_of (fileName f) in
     if negb (Js.arr_includes ALLOWED_EXTENSIONS fileExtension) then
       mret {| statusCode := 400; res_headers := headers;
               res_body := JSON_stringify (JObj
                 [ ("error", JStr "Invalid file type");
                   ("message", JStr ("Supported file types: " +:+
                      String.concat ", " ALLOWED_EXTENSIONS)) ]);
               res_isBase64Encoded := None |}
     else
       let contentType := contentType_of fileExtension (fileType f) in
       now ← Date_now;
       let key := key_of now (fileName f) in
       _ ← send_PutObject key (fileData f) contentType (upload_metadata f);
       mret {| statusCode := 200; res_headers := headers;
               res_body := JSON_stringify (JObj
                 [ ("message", JStr "File uploaded successfully");
                   ("key", JStr key);
                   ("fileName", JStr (fileName f));
                   ("documentValueCode", JStr (documentValueCode f));
                   ("documentValueTypeCode", JStr (documentValueTypeCode f)) ]);
               res_isBase64Encoded := None |})
    (fun error =>
       mret {| statusCode := 500; res_headers := headers;
               res_body := JSON_stringify (JObj
                 [ ("error", JStr "Failed to upload file");
                   ("details", JStr (err_message error)) ]);
               res_isBase64Encoded := None |}).

(** One entry of the listing. *)
Definition document_of (item : ListItem) : js_value :=
  let key := Key item in
  let fileName := Js.pop (Js.split "/" key) in
  JObj [ ("key", JStr (Key item)); ("fileName", JStr fileName);
         ("size", JNum (Size item)); ("lastModified", JDate (LastModified item)) ].

Definition listDocuments `{!Runtime} (headers : gmap string string)
  : Async response :=
  response ← send_ListObjectsV2 "documents/";
  let documents :=
    match Contents response with
    | Some items => map document_of items
    | None => []
    end in
  mret {| statusCode := 200; res_headers := headers;
          res_body := JSON_stringify (JObj [ ("documents", JArr documents) ]);
          res_isBase64Encoded := None |}.

Definition dquote : string := String "034"%char EmptyString.

Definition downloadFile `{!Runtime} (event : event) (headers : gmap string string)
  : Async response :=
  match queryStringParameters event ≫= (fun q => q !! "key") with
  | Some (String c k) =>
      let key := String c k in
      try_catch
        (response ← send_GetObject key;
         let fileName := Js.pop (Js.split "/" key) in
         let contentType :=
           Js.or_default (ContentType response) "application/octet-stream" in
         let metadata := default [] (Metadata response) in
         let fileBuffer := concat (Body response) in
         if String.eqb contentType "text/plain" then
           mret {| statusCode := 200;
                   res_headers := <["Content-Type" := "application/json"]> headers;
                   res_body := JSON_stringify (JObj
                     [ ("fileName", JStr fileName);
                       ("contentType", JStr contentType);
                       ("fileContent", JStr (Base64.encode fileBuffer));
                       ("isBase64Encoded", JBool true);
                       ("metadata", JObj (map (fun kv => (kv.1, JStr kv.2)) metadata)) ]);
                   res_isBase64Encoded := None |}
         else
           let downloadHeaders :=
             <["X-Document-Value-Type-Code" :=
                 Js.or_default (Js.prop "documentvaluetypecode" metadata) "NA"]>
             (<["X-Document-Value-Code" :=
                 Js.or_default (Js.prop "documentvaluecode" metadata) "NA"]>
             (<["Content-Length" := pretty (N.of_nat (length fileBuffer))]>
             (<["Content-Disposition" :=
                 "attachment; filename=" +:+ dquote +:+ fileName +:+ dquote]>
             (<["Content-Type" := contentType]> headers)))) in
           mret {| statusCode := 200; res_headers := downloadHeaders;
                   res_body := Raw (Base64.encode fileBuffer);
                   res_isBase64Encoded := Some true |})
        (fun error =>
           if String.eqb (err_name error) "NoSuchKey" then
             mret {| statusCode := 404; res_headers := headers;
                     res_body := JSON_stringify (JObj
                       [ ("error", JStr "Document not found") ]);
                     res_isBase64Encoded := None |}
           else
             mret {| statusCode := 500; res_headers := headers;
                     res_body := JSON_stringify (JObj
                       [ ("error", JStr "Failed to download file");
                         ("details", JStr (err_message error)) ]);
                     res_isBase64Encoded := None |})
  | _ =>
      mret {| statusCode := 400; res_headers := headers;
              res_body := JSON_stringify (JObj
                [ ("error", JStr "Document key is required") ]);
              res_isBase64Encoded := None |}
  end.

(** ** The action router: [exports.handler] *)

Definition preflight_response (headers : gmap string string) : response :=
  {| statusCode := 200; res_headers := headers;
     res_body := JSON_stringify (JObj
       [ ("message", JStr "Preflight request successful") ]);
     res_isBase64Encoded := None |}.

Definition invalid_action_response (headers : gmap string string) : response :=
  {| statusCode := 400; res_headers := headers;
     res_body := JSON_stringify (JObj
       [ ("error", JStr "Invalid action specified") ]);
     res_isBase64Encoded := None |}.

(** What [exports.handler] is invoked with: an envelope with a [headers]
    object, an envelope whose [headers] is null or absent, or no envelope
    at all (a null or undefined [event]). *)
Inductive js_missing := js_null | js_undefined.

Inductive invocation :=
| WithHeaders (event : event)
| WithoutHeaders (missing : js_missing) (method : string)
    (query : option (gmap string string))
    (text : option string) (base64 : bool)
| NoEvent (missing : js_missing).

(** Reading the property [property] of null or undefined. *)
Definition read_TypeError (missing : js_missing) (property : string) : js_error :=
  {| err_name := "TypeError";
     err_message :=
       "Cannot read properties of " +:+
       match missing with js_null => "null" | js_undefined => "undefined" end +:+
       " (reading '" +:+ property +:+ "')" |}.

(** The first statement of the handler, [console.log('Received event:',
    ...)]: it reads [event.httpMethod] and then
    [event.headers['content-type']]. *)
Definition log_received (invocation : invocation) : Async event :=
  fun w =>
    match invocation with
    | WithHeaders event => (Returned event, w)
    | WithoutHeaders missing _ _ _ _ =>
        (Thrown (read_TypeError missing "content-type"), w)
    | NoEvent missing => (Thrown (read_TypeError missing "httpMethod"), w)
    end.

Definition handler `{!Runtime} (invocation : invocation) : Async response :=
  try_catch
    (event ← log_received invocation;
     let headers := getCorsHeaders in
     if String.eqb (httpMethod event) "OPTIONS" then
       mret (preflight_response headers)
     else
       let action := queryStringParameters event ≫= (fun q => q !! "action") in
       match action with
       | Some a =>
           if String.eqb a "uploadFile" then uploadFile event headers
           else if String.eqb a "listDocuments" then listDocuments headers
           else if String.eqb a "downloadFile" then downloadFile event headers
           else mret (invalid_action_response headers)
       | None => mret (invalid_action_response headers)
       end)
    (fun error =>
       mret {| statusCode := 500; res_headers := getCorsHeaders;
               res_body := JSON_stringify (JObj
                 [ ("error", JStr "Internal server error");
                   ("details", JStr (err_message error)) ]);
               res_isBase64Encoded := None |}).

(** ** The vocabulary of the specification

    These definitions follow the words of the specification, not the code;
    the theorems below compare the code with them. *)

(** [c] occurs in [s]. *)
Fixpoint occurs (c : ascii) (s : string) : bool :=
  match s with
  | EmptyString => false
  | String a s' => Ascii.eqb a c || occurs c s'
  end.

(** The substring after the last [c] of [s] (all of [s] when it has none):
    the final path segment for ["/"], the extension for ["."]. *)
Fixpoint after_last (c : ascii) (s : string) : string :=
  match s with
  | EmptyString => EmptyString
  | String a s' => if occurs c s then after_last c s' else s
  end.

(** The allow-list of seven types. *)
Definition allowed_types : list string :=
  ["docx"; "pdf"; "jpg"; "png"; "jpeg"; "txt"; "xlsx"].

(** The canonical MIME type of a type of the allow-list. *)
Definition canonical_mime (type : string) : option string :=
  if String.eqb type "pdf" then Some "application/pdf"
  else if String.eqb type "docx" then
    Some "application/vnd.openxmlformats-officedocument.wordprocessingml.document"
  else if String.eqb type "xlsx" then
    Some "application/vnd.openxmlformats-officedocument.spreadsheetml.sheet"
  else if String.eqb type "txt" then Some "text/plain"
  else if String.eqb type "jpg" then Some "image/jpeg"
  else if String.eqb type "jpeg" then Some "image/jpeg"
  else if String.eqb type "png" then Some "image/png"
  else None.

(** The file a file part carries: filename, declared type and bytes. *)
Definition file_of_part (p : form_part) : option (string * string * list byte) :=
  match p with
  | FilePart _ filename _ mimetype chunks => Some (filename, mimetype, concat chunks)
  | FieldPart _ _ => None
  end.

Definition files_of (parts : list form_part) : list (string * string * list byte) :=
  omap file_of_part parts.

Definition file_of_form (f : form) : string * string * list byte :=
  (fileName f, fileType f, fileData f).

(** The value of the form field [name] after the parts [parts]. *)
Definition field_after (name : string) (parts : list form_part) (init : string)
  : string :=
  fold_left (fun acc p =>
    match p with
    | FieldPart fieldname val => if String.eqb fieldname name then val else acc
    | FilePart _ _ _ _ _ => acc
    end) parts init.

Definition is_file_event (ev : bb_event) : bool :=
  match ev with EvFile _ _ _ _ _ => true | _ => false end.

Definition is_end_event (ev : bb_event) : bool :=
  match ev with EvEnd _ => true | _ => false end.

(** The content-type header as [extractFileFromForm] reads it. *)
Definition contentType_header (event : event) : option string :=
  Js.or_else (headers event !! "content-type") (headers event !! "Content-Type").

(** The request is a multipart form for which the parser emits [trace]. *)
Definition emits `{!Runtime} (event : event) (trace : list bb_event) : Prop :=
  exists contentType bb text,
    contentType_header event = Some contentType /\
    Js.includes "multipart/form-data" contentType = true /\
    Busboy contentType = inr bb /\
    body event = Some text /\
    bb (if isBase64Encoded event then Base64.decode text
        else String.list_byte_of_string text) = trace.

(** The property [k] of a stringified object. *)
Fixpoint obj_get (k : string) (props : list (string * js_value)) : option js_value :=
  match props with
  | [] => None
  | (k', v) :: props' => if String.eqb k k' then Some v else obj_get k props'
  end.

(** What a client reads off a download response: the file content, from
    the base64 body or from the [fileContent] of the JSON envelope. *)
Definition downloaded_content (r : response) : option (list byte) :=
  match res_body r with
  | Raw s => Some (Base64.decode s)
  | JSON_stringify (JObj props) =>
      match obj_get "fileContent" props with
      | Some (JStr s) => Some (Base64.decode s)
      | _ => None
      end
  | _ => None
  end.


(** The [key] property of a JSON response body. *)
Definition returned_key (r : response) : option string :=
  match res_body r with
  | JSON_stringify (JObj props) =>
      match obj_get "key" props with
      | Some (JStr s) => Some s
      | _ => None
      end
  | _ => None
  end.

(** The entries of a listing response. *)
Definition listed (r : response) : list js_value :=
  match res_body r with
  | JSON_stringify (JObj [(_, JArr documents)]) => documents
  | _ => []
  end.

(** The responses of the upload flow and of the router's failure boundary,
    by name. *)
Definition invalid_file_type (headers : gmap string string) : response :=
  {| statusCode := 400; res_headers := headers;
     res_body := JSON_stringify (JObj
       [ ("error", JStr "Invalid file type");
         ("message", JStr
            "Supported file types: .docx, .pdf, .jpg, .png, .jpeg, .txt, .xlsx") ]);
     res_isBase64Encoded := None |}.

Definition upload_succeeded (headers : gmap string string) (key : string)
    (f : form) : response :=
  {| statusCode := 200; res_headers := headers;
     res_body := JSON_stringify (JObj
       [ ("message", JStr "File uploaded successfully");
         ("key", JStr key);
         ("fileName", JStr (fileName f));
         ("documentValueCode", JStr (documentValueCode f));
         ("documentValueTypeCode", JStr (documentValueTypeCode f)) ]);
     res_isBase64Encoded := None |}.

Definition upload_failed (headers : gmap string string) (error : js_error)
  : response :=
  {| statusCode := 500; res_headers := headers;
     res_body := JSON_stringify (JObj
       [ ("error", JStr "Failed to upload file");
         ("details", JStr (err_message error)) ]);
     res_isBase64Encoded := None |}.

Definition internal_server_error (error : js_error) : response :=
  {| statusCode := 500; res_headers := getCorsHeaders;
     res_body := JSON_stringify (JObj
       [ ("error", JStr "Internal server error");
         ("details", JStr (err_message error)) ]);
     res_isBase64Encoded := None |}.

(** The command an accepted upload sends, and the object the store then
    holds. *)
Definition upload_command (now : N) (f : form) : s3_command :=
  PutObjectCommand (key_of now (fileName f)) (fileData f)
    (contentType_of (fileExtension_of (fileName f)) (fileType f))
    (upload_metadata f).

Definition uploaded_object `{!Runtime} (now : N) (f : form) : s3_object :=
  {| obj_Body := fileData f;
     obj_ContentType :=
       Some (contentType_of (fileExtension_of (fileName f)) (fileType f));
     obj_Metadata :=
       Some (map (fun kv => (meta_name kv.1, kv.2)) (upload_metadata f));
     obj_LastModified := now |}.

(** The two successful responses of the download flow. *)
Definition envelope (headers : gmap string string) (fileName contentType : string)
    (metadata : list (string * string)) (fileBuffer : list byte) : response :=
  {| statusCode := 200;
     res_headers := <["Content-Type" := "application/json"]> headers;
     res_body := JSON_stringify (JObj
       [ ("fileName", JStr fileName);
         ("contentType", JStr contentType);
         ("fileContent", JStr (Base64.encode fileBuffer));
         ("isBase64Encoded", JBool true);
         ("metadata", JObj (map (fun kv => (kv.1, JStr kv.2)) metadata)) ]);
     res_isBase64Encoded := None |}.

Definition attachment (headers : gmap string string) (fileName contentType : string)
    (metadata : list (string * string)) (fileBuffer : list byte) : response :=
  {| statusCode := 200;
     res_headers :=
       <["X-Document-Value-Type-Code" :=
           Js.or_default (Js.prop "documentvaluetypecode" metadata) "NA"]>
       (<["X-Document-Value-Code" :=
           Js.or_default (Js.prop "documentvaluecode" metadata) "NA"]>
       (<["Content-Length" := pretty (N.of_nat (length fileBuffer))]>
       (<["Content-Disposition" :=
           "attachment; filename=" +:+ dquote +:+ fileName +:+ dquote]>
       (<["Content-Type" := contentType]> headers))));
     res_body := Raw (Base64.encode fileBuffer);
     res_isBase64Encoded := Some true |}.


(** ** Sample requests and runtimes *)

Definition sample_pdf : form_part :=
  FilePart "file" "report.pdf" "7bit" "application/octet-stream"
    [["%"; "P"; "D"; "F"]%byte; ["-"; "1"; "."; "4"]%byte].

Definition sample_txt : form_part :=
  FilePart "file" "notes.TXT" "7bit" "application/octet-stream"
    [["h"; "i"]%byte].

Definition sample_exe : form_part :=
  FilePart "file" "setup.exe" "7bit" "application/pdf" [["M"; "Z"]%byte].

Definition sample_code : form_part := FieldPart "documentValueCode" "INV001".

(** A store without failures that returns metadata names in lower case, and
    a parser that reads every body as the parts [parts]. *)
Definition sample_runtime (parts : list form_part) : Runtime :=
  {| Busboy := fun _ => inr (fun _ => events_of_parts 0 parts);
     s3_fault := fun _ => None;
     meta_name := Js.toLowerCase |}.

(** The same parser over a store that returns metadata names as sent. *)
Definition verbatim_runtime (parts : list form_part) : Runtime :=
  {| Busboy := fun _ => inr (fun _ => events_of_parts 0 parts);
     s3_fault := fun _ => None;
     meta_name := fun k => k |}.

Definition sample_event (method : string) (query : option (gmap string string))
    (contentType : option string) : event :=
  {| httpMethod := method; queryStringParameters := query;
     headers := match contentType with
                | Some ct => {["content-type" := ct]}
                | None => ∅
                end;
     body := Some "--x--"; isBase64Encoded := false |}.

Definition upload_event : event :=
  sample_event "POST" (Some {["action" := "uploadFile"]})
    (Some "multipart/form-data; boundary=x").

Definition download_event (key : string) : event :=
  sample_event "GET" (Some (<["key" := key]> {["action" := "downloadFile"]})) None.

Definition empty_world : world :=
  {| bucket := ∅; clock := 1700000000000; sent := [] |}.

Definition report_runtime : Runtime := sample_runtime [sample_code; sample_pdf].

Definition returned {A} (o : outcome A) : option A :=
  match o with Returned a => Some a | _ => None end.

Definition report_upload : outcome response * world :=
  @uploadFile report_runtime upload_event getCorsHeaders empty_world.

Definition report_download : outcome response * world :=
  @downloadFile report_runtime
    (download_event "documents/1700000000000-report.pdf") getCorsHeaders
    report_upload.2.

Definition sample_dotless : form_part :=
  FilePart "file" "txt" "7bit" "text/html" [["h"; "i"]%byte].

(** An object whose metadata carries the two values under the names the
    upload writes. *)
Definition camel_object : s3_object :=
  {| obj_Body := ["M"; "a"; "n"]%byte;
     obj_ContentType := Some "image/png";
     obj_Metadata :=
       Some [("documentValueCode", "INV001"); ("documentValueTypeCode", "T1")];
     obj_LastModified := 1700000000000 |}.

Definition camel_world : world :=
  {| bucket := {["documents/1-scan.png" := camel_object]};
     clock := 1700000000001; sent := [] |}.

(** ** More names for responses, events and runtimes *)

(** The failure responses of the download flow. *)
Definition key_required (headers : gmap string string) : response :=
  {| statusCode := 400; res_headers := headers;
     res_body := JSON_stringify (JObj
       [ ("error", JStr "Document key is required") ]);
     res_isBase64Encoded := None |}.

Definition document_not_found (headers : gmap string string) : response :=
  {| statusCode := 404; res_headers := headers;
     res_body := JSON_stringify (JObj [ ("error", JStr "Document not found") ]);
     res_isBase64Encoded := None |}.

Definition download_failed (headers : gmap string string) (error : js_error)
  : response :=
  {| statusCode := 500; res_headers := headers;
     res_body := JSON_stringify (JObj
       [ ("error", JStr "Failed to download file");
         ("details", JStr (err_message error)) ]);
     res_isBase64Encoded := None |}.

(** The response of the list flow for the entries [documents]. *)
Definition listing (headers : gmap string string) (documents : list js_value)
  : response :=
  {| statusCode := 200; res_headers := headers;
     res_body := JSON_stringify (JObj [ ("documents", JArr documents) ]);
     res_isBase64Encoded := None |}.

(** The [key] and [action] query parameters as the flows read them. *)
Definition key_param (event : event) : option string :=
  queryStringParameters event ≫= (fun q => q !! "key").

Definition action_param (event : event) : option string :=
  queryStringParameters event ≫= (fun q => q !! "action").

(** The events that settle the promise of [extractFileFromForm]. *)
Definition is_settling_event (ev : bb_event) : bool :=
  match ev with EvFinish | EvError _ => true | _ => false end.

(** The events the decoder looks at: all but the ['field'] events of
    other names than the two known ones. *)
Definition relevant_event (ev : bb_event) : bool :=
  match ev with
  | EvField fieldname _ =>
      String.eqb fieldname "documentValueCode" ||
      String.eqb fieldname "documentValueTypeCode"
  | _ => true
  end.

(** The values the ['field'] events of a trace give to the field [name], in
    order. *)
Definition field_values (name : string) (trace : list bb_event) : list string :=
  omap (fun ev =>
    match ev with
    | EvField fieldname val =>
        if String.eqb fieldname name then Some val else None
    | _ => None
    end) trace.

(** The filename and declared type of each ['file'] event of a trace, in
    order. *)
Definition file_events (trace : list bb_event) : list (string * string) :=
  omap (fun ev =>
    match ev with
    | EvFile _ _ filename _ mimetype => Some (filename, mimetype)
    | _ => None
    end) trace.

(** The chunks the file stream [stream] delivers in a trace. *)
Definition delivered (stream : nat) (trace : list bb_event) : list (list byte) :=
  omap (fun ev =>
    match ev with
    | EvData stream' data => if Nat.eqb stream' stream then Some data else None
    | _ => None
    end) trace.

(** The event is the ['file'] event that opens [stream]. *)
Definition opens (stream : nat) (ev : bb_event) : bool :=
  match ev with
  | EvFile stream' _ _ _ _ => Nat.eqb stream' stream
  | _ => false
  end.

Definition is_digit (c : ascii) : bool :=
  let n := N_of_ascii c in (48 <=? n)%N && (n <=? 57)%N.

(** [s] is made of decimal digits. *)
Fixpoint digits (s : string) : bool :=
  match s with
  | EmptyString => true
  | String c s' => is_digit c && digits s'
  end.

(** The entries of a bucket under a prefix, as the store lists them. *)
Definition entries_under (Prefix : string) (b : gmap string s3_object)
  : list (string * s3_object) :=
  filter (fun entry => String.prefix Prefix entry.1 = true) (map_to_list b).

(** A parser that emits [trace] whatever it is given. *)
Definition trace_runtime (trace : list bb_event) : Runtime :=
  {| Busboy := fun _ => inr (fun _ => trace);
     s3_fault := fun _ => None;
     meta_name := Js.toLowerCase |}.

(** A store that answers every command with [error]. *)
Definition faulty_runtime (error : js_error) (parts : list form_part) : Runtime :=
  {| Busboy := fun _ => inr (fun _ => events_of_parts 0 parts);
     s3_fault := fun _ => Some error;
     meta_name := Js.toLowerCase |}.

(** A parser whose constructor throws [error]. *)
Definition throwing_runtime (error : js_error) : Runtime :=
  {| Busboy := fun _ => inl error;
     s3_fault := fun _ => None;
     meta_name := Js.toLowerCase |}.

(** A parser that takes the buffer written as the one chunk of a file
    [upload.pdf]. *)
Definition echo_runtime : Runtime :=
  {| Busboy := fun _ => inr (fun buffer =>
       events_of_parts 0
         [FilePart "file" "upload.pdf" "7bit" "application/pdf" [buffer]]);
     s3_fault := fun _ => None;
     meta_name := Js.toLowerCase |}.

(** The events of a body with two file parts, [report.pdf] then
    [notes.TXT], written to the parser at once: both ['file'] events, then
    the data and the end of each stream. *)
Definition two_files_trace : list bb_event :=
  [ EvFile 0 "file" "report.pdf" "7bit" "application/pdf";
    EvFile 1 "file" "notes.TXT" "7bit" "text/plain";
    EvData 0 ["%"; "P"; "D"; "F"]%byte;
    EvData 1 ["h"; "i"]%byte;
    EvEnd 0;
    EvEnd 1;
    EvFinish ].

(** A file part followed by fields, written at once: the ['field'] events
    come before the data and the end of the file stream. *)
Definition file_then_fields_trace : list bb_event :=
  [ EvField "documentValueCode" "OLD";
    EvFile 0 "file" "report.pdf" "7bit" "application/pdf";
    EvField "comment" "x";
    EvField "documentValueCode" "NEW";
    EvData 0 ["%"; "P"; "D"; "F"]%byte;
    EvEnd 0;
    EvFinish ].

Definition AccessDenied : js_error :=
  {| err_name := "AccessDenied"; err_message := "Access Denied" |}.

Definition list_event : event :=
  sample_event "GET" (Some {["action" := "listDocuments"]}) None.

Definition null_body_event : event :=
  {| httpMethod := "POST";
     queryStringParameters := Some {["action" := "uploadFile"]};
     headers := {["Content-Type" := "multipart/form-data; boundary=x"]};
     body := None; isBase64Encoded := false |}.

Definition base64_event (text : string) : event :=
  {| httpMethod := "POST";
     queryStringParameters := Some {["action" := "uploadFile"]};
     headers := {["content-type" := "multipart/form-data; boundary=x"]};
     body := Some text; isBase64Encoded := true |}.

Definition plain_event (text : string) : event :=
  {| httpMethod := "POST";
     queryStringParameters := Some {["action" := "uploadFile"]};
     headers := {["content-type" := "multipart/form-data; boundary=x"]};
     body := Some text; isBase64Encoded := false |}.

(** ** Properties of the string operations *)

Lemma split_nonempty sep s : Js.split sep s <> [].
Proof.
  destruct s as [|c s]; simpl; [discriminate|].
  destruct (Ascii.eqb c sep); [discriminate|].
  destruct (Js.split sep s); discriminate.
Qed.

Lemma sextet_of_char_of_sextet x :
  Base64.sextet_of_char (Base64.char_of_sextet x) = Some x.
Proof.
  destruct x as [[[[[[] []] []] []] []] []]; reflexivity.
Qed.

Lemma char_of_sextet_not_pad x :
  Ascii.eqb (Base64.char_of_sextet x) "="%char = false.
Proof.
  destruct x as [[[[[[] []] []] []] []] []]; reflexivity.
Qed.

Lemma sextets_of_string_app l s :
  Base64.sextets_of_string (Base64.string_of_sextets l +:+ s) =
  l ++ Base64.sextets_of_string s.
Proof.
  induction l as [|x l IH]; [reflexivity|].
  change (Base64.string_of_sextets (x :: l) +:+ s)
    with (String (Base64.char_of_sextet x) (Base64.string_of_sextets l +:+ s)).
  simpl. rewrite char_of_sextet_not_pad, sextet_of_char_of_sextet, IH.
  reflexivity.
Qed.

Lemma bytes_of_sextets3 a b c rest :
  Base64.bytes_of_sextets (Base64.sextets3 a b c ++ rest) =
  a :: b :: c :: Base64.bytes_of_sextets rest.
Proof.
  rewrite <- (Byte.of_bits_to_bits a), <- (Byte.of_bits_to_bits b),
    <- (Byte.of_bits_to_bits c).
  generalize (Byte.to_bits a) (Byte.to_bits b) (Byte.to_bits c).
  intros ba bb bc. unfold Base64.sextets3. rewrite !Byte.to_bits_of_bits.
  destruct ba as (a0 & a1 & a2 & a3 & a4 & a5 & a6 & a7).
  destruct bb as (b0 & b1 & b2 & b3 & b4 & b5 & b6 & b7).
  destruct bc as (c0 & c1 & c2 & c3 & c4 & c5 & c6 & c7).
  reflexivity.
Qed.

Lemma bytes_of_sextets2 a b :
  Base64.bytes_of_sextets (take 3 (Base64.sextets3 a b "000"%byte)) = [a; b].
Proof.
  rewrite <- (Byte.of_bits_to_bits a), <- (Byte.of_bits_to_bits b).
  generalize (Byte.to_bits a) (Byte.to_bits b).
  intros ba bb. unfold Base64.sextets3. rewrite !Byte.to_bits_of_bits.
  destruct ba as (a0 & a1 & a2 & a3 & a4 & a5 & a6 & a7).
  destruct bb as (b0 & b1 & b2 & b3 & b4 & b5 & b6 & b7).
  reflexivity.
Qed.

Lemma bytes_of_sextets1 a :
  Base64.bytes_of_sextets (take 2 (Base64.sextets3 a "000"%byte "000"%byte)) = [a].
Proof.
  rewrite <- (Byte.of_bits_to_bits a).
  generalize (Byte.to_bits a).
  intros ba. unfold Base64.sextets3. rewrite !Byte.to_bits_of_bits.
  destruct ba as (a0 & a1 & a2 & a3 & a4 & a5 & a6 & a7).
  reflexivity.
Qed.

(** Every buffer has one of the four shapes [encode] distinguishes. *)
Lemma buffer_ind3 (P : list byte -> Prop) :
  P [] -> (forall a, P [a]) -> (forall a b, P [a; b]) ->
  (forall a b c rest, P rest -> P (a :: b :: c :: rest)) ->
  forall buf, P buf.
Proof.
  intros H0 H1 H2 H3.
  fix IH 1. intros [|a [|b [|c rest]]].
  - exact H0.
  - exact (H1 a).
  - exact (H2 a b).
  - exact (H3 a b c rest (IH rest)).
Qed.

(** Decoding what [toString('base64')] produced gives the buffer back. *)
Lemma base64_decode_encode buf : Base64.decode (Base64.encode buf) = buf.
Proof.
  unfold Base64.decode.
  induction buf as [|a|a b|a b c rest IH] using buffer_ind3.
  - reflexivity.
  - cbn [Base64.encode]. rewrite sextets_of_string_app. simpl Base64.sextets_of_string.
    rewrite app_nil_r. apply bytes_of_sextets1.
  - cbn [Base64.encode]. rewrite sextets_of_string_app. simpl Base64.sextets_of_string.
    rewrite app_nil_r. apply bytes_of_sextets2.
  - cbn [Base64.encode]. rewrite sextets_of_string_app, bytes_of_sextets3, IH.
    reflexivity.
Qed.

Example base64_Man :
  Base64.encode ["M"; "a"; "n"]%byte = "TWFu" /\
  Base64.encode ["M"; "a"]%byte = "TWE=" /\
  Base64.encode ["M"]%byte = "TQ==" /\
  Base64.decode "TWFu TQ==" = ["M"; "a"; "n"; "M"]%byte.
Proof. repeat split; reflexivity. Qed.

(** ** The last segment of a split *)

Lemma split_no_sep c s : occurs c s = false -> Js.split c s = [s].
Proof.
  induction s as [|a s IH]; simpl; [reflexivity|].
  intros [Ha Hs]%orb_false_iff. rewrite Ha, (IH Hs). reflexivity.
Qed.

Lemma split_sep c s :
  occurs c s = true -> exists seg r rest, Js.split c s = seg :: r :: rest.
Proof.
  induction s as [|a s IH]; simpl; [discriminate|].
  destruct (Ascii.eqb a c) eqn:Ha; simpl.
  - intros _. destruct (Js.split c s) as [|r rest] eqn:E.
    + destruct (split_nonempty _ _ E).
    + eauto.
  - intros Hs. destruct (IH Hs) as (seg & r & rest & ->). eauto.
Qed.

(** [s.split(c).pop()] is the substring after the last [c]. *)
Lemma pop_split_after_last c s : Js.pop (Js.split c s) = after_last c s.
Proof.
  unfold Js.pop. induction s as [|a s IH]; [reflexivity|].
  cbn [Js.split after_last occurs].
  destruct (Ascii.eqb a c) eqn:Ha; cbn [orb].
  - destruct (Js.split c s) as [|r rest] eqn:E.
    + destruct (split_nonempty _ _ E).
    + exact IH.
  - destruct (occurs c s) eqn:Hs.
    + destruct (split_sep _ _ Hs) as (seg & r & rest & E).
      rewrite E in IH |- *. exact IH.
    + rewrite (split_no_sep _ _ Hs). reflexivity.
Qed.

Lemma after_last_no_sep c s : occurs c s = false -> after_last c s = s.
Proof. destruct s; simpl; [reflexivity|]. intros ->. reflexivity. Qed.

(** ** Extensions and content types *)

Lemma lower_char_idemp c : Js.lower_char (Js.lower_char c) = Js.lower_char c.
Proof. destruct c as [[] [] [] [] [] [] [] []]; reflexivity. Qed.

Lemma toLowerCase_idemp s : Js.toLowerCase (Js.toLowerCase s) = Js.toLowerCase s.
Proof.
  induction s as [|c s IH]; simpl; [reflexivity|].
  rewrite lower_char_idemp, IH. reflexivity.
Qed.

Lemma arr_includes_elem_of arr x : Js.arr_includes arr x = true <-> x ∈ arr.
Proof.
  unfold Js.arr_includes. rewrite existsb_exists. split.
  - intros (y & Hy & ->%String.eqb_eq). by apply list_elem_of_In.
  - intros Hx. exists x. split; [by apply list_elem_of_In|apply String.eqb_refl].
Qed.

Lemma fileExtension_of_after_last fileName :
  fileExtension_of fileName = String "." (Js.toLowerCase (after_last "." fileName)).
Proof. unfold fileExtension_of. rewrite pop_split_after_last. reflexivity. Qed.

(** The code's dotted allow-list is the specification's list of types. *)
Lemma allowed_extension_iff fileName :
  Js.arr_includes ALLOWED_EXTENSIONS (fileExtension_of fileName) = true <->
  Js.toLowerCase (after_last "." fileName) ∈ allowed_types.
Proof.
  rewrite arr_includes_elem_of, fileExtension_of_after_last.
  change ALLOWED_EXTENSIONS with (String "."%char <$> allowed_types).
  rewrite list_elem_of_fmap. split.
  - intros (y & [= ->] & Hy). exact Hy.
  - intros Hy. eauto.
Qed.

(** On the types of the allow-list the [switch] of [uploadFile] is the
    canonical table, whatever the case of the extension and whatever type
    the client declared. *)
Lemma contentType_of_canonical x type fileType :
  Js.toLowerCase x = type -> type ∈ allowed_types ->
  canonical_mime type = Some (contentType_of (String "." x) fileType).
Proof.
  intros Hx Htype. unfold contentType_of. cbn [Js.toLowerCase].
  rewrite Hx. unfold allowed_types in Htype.
  repeat (apply elem_of_cons in Htype as [-> | Htype]; [reflexivity|]).
  by apply elem_of_nil in Htype.
Qed.

(** ** The decoder's handlers *)

(** The [data] events of a file stream append to its [chunks]. *)
Lemma run_data stream chunks : forall d acc,
  d_chunks d !! stream = Some acc ->
  fold_left on_event (map (EvData stream) chunks) d =
  {| d_fileData := d_fileData d; d_fileName := d_fileName d;
     d_fileType := d_fileType d;
     d_documentValueCode := d_documentValueCode d;
     d_documentValueTypeCode := d_documentValueTypeCode d;
     d_chunks := <[stream := acc ++ chunks]> (d_chunks d);
     d_promise := d_promise d |}.
Proof.
  induction chunks as [|data chunks IH]; intros d acc Hacc.
  - destruct d; simpl in *. rewrite app_nil_r, insert_id; done.
  - cbn [map fold_left]. cbn [on_event]. rewrite Hacc.
    rewrite (IH _ (acc ++ [data])); cbn.
    + rewrite insert_insert_eq, <- app_assoc. reflexivity.
    + apply lookup_insert_eq.
Qed.

(** The promise after the events of [parts]: the file is the one of the
    last file part, when there is one. *)
Lemma run_events_of_parts parts : forall stream d,
  d_promise d = Pending ->
  d_promise (fold_left on_event (events_of_parts stream parts) d) =
  let code := field_after "documentValueCode" parts (d_documentValueCode d) in
  let typeCode :=
    field_after "documentValueTypeCode" parts (d_documentValueTypeCode d) in
  match last (files_of parts) with
  | Some (filename, mimetype, data) =>
      Returned {| fileData := data; fileName := filename; fileType := mimetype;
                  documentValueCode := code; documentValueTypeCode := typeCode |}
  | None =>
      match d_fileData d with
      | Some data =>
          Returned {| fileData := data; fileName := d_fileName d;
                      fileType := d_fileType d;
                      documentValueCode := code;
                      documentValueTypeCode := typeCode |}
      | None => Thrown (new_Error "No file found in form data")
      end
  end.
Proof.
  induction parts as [|[fieldname filename encoding mimetype chunks|fieldname val] parts IH];
    intros stream d Hd.
  - cbn. unfold settle. rewrite Hd. destruct (d_fileData d); reflexivity.
  - cbn [events_of_parts fold_left]. rewrite fold_left_app.
    cbn [on_event]. rewrite (run_data _ _ _ []) by apply lookup_insert_eq.
    cbn [fold_left on_event d_chunks]. rewrite lookup_insert_eq.
    rewrite IH by exact Hd. cbn.
    unfold files_of. cbn [omap file_of_part]. fold (files_of parts).
    rewrite last_cons. destruct (last (files_of parts)) as [[[? ?] ?]|]; reflexivity.
  - cbn [events_of_parts fold_left]. rewrite IH.
    + unfold files_of. cbn [omap file_of_part]. fold (files_of parts).
      cbn [field_after fold_left on_event].
      destruct (String.eqb_spec fieldname "documentValueCode") as [->|Hc].
      * reflexivity.
      * destruct (String.eqb_spec fieldname "documentValueTypeCode") as [->|Ht];
          reflexivity.
    + cbn [on_event]. repeat case_match; exact Hd.
Qed.

(** Whatever the order in which the parser emits its events, the filename
    and the declared type are those of the last ['file'] event, and the file
    data is that of the file stream that ended last. *)
Lemma on_event_keeps_names d ev :
  is_file_event ev = false ->
  d_fileName (on_event d ev) = d_fileName d /\
  d_fileType (on_event d ev) = d_fileType d.
Proof.
  destruct ev; cbn; try discriminate; intros _;
    unfold settle; repeat case_match; split; cbn; congruence.
Qed.

Lemma on_event_keeps_data d ev :
  is_end_event ev = false ->
  d_fileData (on_event d ev) = d_fileData d.
Proof.
  destruct ev; cbn; try discriminate; intros _;
    unfold settle; repeat case_match; cbn; congruence.
Qed.

Lemma run_keeps_names rest : forall d,
  Forall (fun ev => is_file_event ev = false) rest ->
  d_fileName (fold_left on_event rest d) = d_fileName d /\
  d_fileType (fold_left on_event rest d) = d_fileType d.
Proof.
  induction rest as [|ev rest IH]; intros d Hrest; [split; reflexivity|].
  apply Forall_cons in Hrest as [Hev Hrest]. cbn [fold_left].
  destruct (IH (on_event d ev) Hrest) as [-> ->].
  apply on_event_keeps_names, Hev.
Qed.

Lemma run_keeps_data rest : forall d,
  Forall (fun ev => is_end_event ev = false) rest ->
  d_fileData (fold_left on_event rest d) = d_fileData d.
Proof.
  induction rest as [|ev rest IH]; intros d Hrest; [reflexivity|].
  apply Forall_cons in Hrest as [Hev Hrest]. cbn [fold_left].
  rewrite (IH (on_event d ev) Hrest). apply on_event_keeps_data, Hev.
Qed.

Lemma names_of_last_file_event trace stream fieldname filename encoding mimetype rest :
  Forall (fun ev => is_file_event ev = false) rest ->
  let d := run_handlers
    (trace ++ EvFile stream fieldname filename encoding mimetype :: rest) in
  d_fileName d = filename /\ d_fileType d = mimetype.
Proof.
  intros Hrest. unfold run_handlers. rewrite fold_left_app. cbn [fold_left].
  destruct (run_keeps_names rest
    (on_event (fold_left on_event trace decoder_init)
       (EvFile stream fieldname filename encoding mimetype)) Hrest) as [-> ->].
  split; reflexivity.
Qed.

Lemma data_of_last_end_event trace stream chunks rest :
  d_chunks (run_handlers trace) !! stream = Some chunks ->
  Forall (fun ev => is_end_event ev = false) rest ->
  d_fileData (run_handlers (trace ++ EvEnd stream :: rest)) = Some (concat chunks).
Proof.
  intros Hchunks Hrest. unfold run_handlers in *. rewrite fold_left_app.
  cbn [fold_left]. rewrite (run_keeps_data rest _ Hrest).
  cbn [on_event]. rewrite Hchunks. reflexivity.
Qed.

Lemma key_of_prefix now fileName :
  String.prefix "documents/" (key_of now fileName) = true.
Proof.
  unfold key_of. generalize (pretty now +:+ "-" +:+ fileName). intros rest.
  cbn. destruct rest; reflexivity.
Qed.


(** ** The flows, case by case *)

Section Flows.
Context `{!Runtime}.

Lemma invalid_file_type_message :
  "Supported file types: " +:+ String.concat ", " ALLOWED_EXTENSIONS =
  "Supported file types: .docx, .pdf, .jpg, .png, .jpeg, .txt, .xlsx".
Proof. reflexivity. Qed.

(** A request that is not a multipart form is rejected before anything is
    parsed. *)
Lemma extract_not_multipart event :
  Js.falsy (contentType_header event) = true \/
  (exists contentType, contentType_header event = Some contentType /\
     Js.includes "multipart/form-data" contentType = false) ->
  extractFileFromForm event =
  Thrown (new_Error "Not a multipart/form-data request").
Proof.
  unfold extractFileFromForm, contentType_header.
  intros [Hfalsy | (contentType & -> & Hinc)].
  - destruct (Js.or_else _ _) as [[|c ct]|]; [reflexivity|discriminate|reflexivity].
  - destruct contentType as [|c ct]; [reflexivity|]. rewrite Hinc. reflexivity.
Qed.

(** A multipart request settles as its handlers leave the promise. *)
Lemma extract_emits event trace :
  emits event trace ->
  extractFileFromForm event = d_promise (run_handlers trace).
Proof.
  intros (contentType & bb & text & Hct & Hinc & Hbb & Hbody & Htrace).
  unfold extractFileFromForm. fold (contentType_header event). rewrite Hct.
  destruct contentType as [|c ct]; [discriminate Hinc|].
  rewrite Hinc, Hbb, Hbody, Htrace. reflexivity.
Qed.

Lemma uploadFile_thrown event headers w error :
  extractFileFromForm event = Thrown error ->
  uploadFile event headers w = (Returned (upload_failed headers error), w).
Proof.
  intros Hex. unfold uploadFile, try_catch, mbind, Async_bind, await.
  rewrite Hex. reflexivity.
Qed.

Lemma uploadFile_pending event headers w :
  extractFileFromForm event = Pending ->
  uploadFile event headers w = (Pending, w).
Proof.
  intros Hex. unfold uploadFile, try_catch, mbind, Async_bind, await.
  rewrite Hex. reflexivity.
Qed.

Lemma uploadFile_rejected event headers w f :
  extractFileFromForm event = Returned f ->
  Js.arr_includes ALLOWED_EXTENSIONS (fileExtension_of (fileName f)) = false ->
  uploadFile event headers w = (Returned (invalid_file_type headers), w).
Proof.
  intros Hex Hext. unfold uploadFile, try_catch, mbind, Async_bind, await.
  rewrite Hex, Hext. reflexivity.
Qed.

Lemma uploadFile_store_fault event headers w f error :
  extractFileFromForm event = Returned f ->
  Js.arr_includes ALLOWED_EXTENSIONS (fileExtension_of (fileName f)) = true ->
  s3_fault (upload_command (clock w) f) = Some error ->
  uploadFile event headers w =
  (Returned (upload_failed headers error),
   log_sent (upload_command (clock w) f) w).
Proof.
  intros Hex Hext Hfault.
  unfold uploadFile, try_catch, mbind, Async_bind, await, Date_now,
    send_PutObject.
  rewrite Hex, Hext. cbn [negb]. fold (upload_command (clock w) f).
  rewrite Hfault. reflexivity.
Qed.

Lemma uploadFile_stored event headers w f :
  extractFileFromForm event = Returned f ->
  Js.arr_includes ALLOWED_EXTENSIONS (fileExtension_of (fileName f)) = true ->
  s3_fault (upload_command (clock w) f) = None ->
  uploadFile event headers w =
  (Returned (upload_succeeded headers (key_of (clock w) (fileName f)) f),
   {| bucket := <[key_of (clock w) (fileName f) := uploaded_object (clock w) f]>
                  (bucket w);
      clock := clock w;
      sent := sent w ++ [upload_command (clock w) f] |}).
Proof.
  intros Hex Hext Hfault.
  unfold uploadFile, try_catch, mbind, Async_bind, await, Date_now,
    send_PutObject.
  rewrite Hex, Hext. cbn [negb]. fold (upload_command (clock w) f).
  rewrite Hfault. reflexivity.
Qed.

(** The four ways an upload that returns can end. *)
Lemma uploadFile_returned event headers w r w' :
  uploadFile event headers w = (Returned r, w') ->
  (exists error, extractFileFromForm event = Thrown error /\
     r = upload_failed headers error /\ w' = w) \/
  (exists f, extractFileFromForm event = Returned f /\
     ((Js.arr_includes ALLOWED_EXTENSIONS (fileExtension_of (fileName f)) = false /\
       r = invalid_file_type headers /\ w' = w) \/
      (Js.arr_includes ALLOWED_EXTENSIONS (fileExtension_of (fileName f)) = true /\
       ((exists error, s3_fault (upload_command (clock w) f) = Some error /\
           r = upload_failed headers error /\
           w' = log_sent (upload_command (clock w) f) w) \/
        (s3_fault (upload_command (clock w) f) = None /\
           r = upload_succeeded headers (key_of (clock w) (fileName f)) f /\
           w' = {| bucket := <[key_of (clock w) (fileName f) :=
                                 uploaded_object (clock w) f]> (bucket w);
                   clock := clock w;
                   sent := sent w ++ [upload_command (clock w) f] |}))))).
Proof.
  intros Hup.
  destruct (extractFileFromForm event) as [f|error|] eqn:Hex.
  - right. exists f. split; [reflexivity|].
    destruct (Js.arr_includes ALLOWED_EXTENSIONS (fileExtension_of (fileName f)))
      eqn:Hext.
    + right. split; [reflexivity|].
      destruct (s3_fault (upload_command (clock w) f)) as [error|] eqn:Hfault.
      * left. exists error. rewrite (uploadFile_store_fault _ _ _ _ _ Hex Hext Hfault) in Hup.
        by injection Hup as <- <-.
      * right. rewrite (uploadFile_stored _ _ _ _ Hex Hext Hfault) in Hup.
        by injection Hup as <- <-.
    + left. rewrite (uploadFile_rejected _ _ _ _ Hex Hext) in Hup.
      by injection Hup as <- <-.
  - left. exists error. rewrite (uploadFile_thrown _ _ _ _ Hex) in Hup.
    by injection Hup as <- <-.
  - rewrite (uploadFile_pending _ _ _ Hex) in Hup. discriminate.
Qed.

Lemma concat_stream_of data : concat (stream_of data) = data.
Proof. destruct data; [reflexivity|]. cbn. by rewrite app_nil_r. Qed.

(** A download of a stored object answers with the envelope for
    [text/plain] and with the attachment otherwise. *)
Lemma downloadFile_found event headers w key object :
  queryStringParameters event ≫= (fun q => q !! "key") = Some key ->
  key <> "" ->
  s3_fault (GetObjectCommand key) = None ->
  bucket w !! key = Some object ->
  let fileName := Js.pop (Js.split "/" key) in
  let contentType :=
    Js.or_default (obj_ContentType object) "application/octet-stream" in
  let metadata := default [] (obj_Metadata object) in
  downloadFile event headers w =
  (Returned
     (if String.eqb contentType "text/plain"
      then envelope headers fileName contentType metadata (obj_Body object)
      else attachment headers fileName contentType metadata (obj_Body object)),
   log_sent (GetObjectCommand key) w).
Proof.
  intros Hkey Hne Hfault Hobj. unfold downloadFile. rewrite Hkey.
  destruct key as [|c k]; [done|].
  unfold try_catch, mbind, Async_bind, send_GetObject.
  rewrite Hfault. cbn [bucket log_sent]. rewrite Hobj.
  cbn [Body ContentType Metadata]. rewrite concat_stream_of.
  destruct (String.eqb _ "text/plain"); reflexivity.
Qed.

(** The upload and download flows catch what they throw. *)
Lemma uploadFile_no_throw event headers w error w' :
  uploadFile event headers w <> (Thrown error, w').
Proof.
  unfold uploadFile, try_catch, mbind, Async_bind, await, Date_now,
    send_PutObject.
  destruct (extractFileFromForm event) as [f| |]; [|discriminate..].
  destruct (negb _); [discriminate|].
  destruct (s3_fault _); discriminate.
Qed.

Lemma downloadFile_no_throw event headers w error w' :
  downloadFile event headers w <> (Thrown error, w').
Proof.
  unfold downloadFile.
  destruct (queryStringParameters event ≫= _) as [[|c k]|]; [discriminate| |discriminate].
  unfold try_catch, mbind, Async_bind, send_GetObject.
  destruct (s3_fault _) as [e|].
  - destruct (String.eqb (err_name e) _); discriminate.
  - cbn [bucket log_sent]. destruct (bucket w !! _); [|discriminate].
    destruct (String.eqb _ "text/plain"); discriminate.
Qed.



(** ** The claims about the upload flow *)

(** C2 (as the code has it): when the content-type header is missing, or
    does not declare [multipart/form-data], the decode fails with the
    error "Not a multipart/form-data request", and the upload flow answers
    500 "Failed to upload file" with that message as details, without
    sending anything to the store. *)
Theorem upload_not_multipart_is_500 event headers w :
  Js.falsy (contentType_header event) = true \/
  (exists contentType, contentType_header event = Some contentType /\
     Js.includes "multipart/form-data" contentType = false) ->
  extractFileFromForm event =
    Thrown (new_Error "Not a multipart/form-data request") /\
  exists r,
    uploadFile event headers w = (Returned r, w) /\
    statusCode r = 500%Z /\
    res_body r = JSON_stringify (JObj
      [ ("error", JStr "Failed to upload file");
        ("details", JStr "Not a multipart/form-data request") ]).
Proof.
  intros Hct. pose proof (extract_not_multipart _ Hct) as Hex.
  split; [exact Hex|].
  eexists. split; [exact (uploadFile_thrown _ headers w _ Hex)|].
  split; reflexivity.
Qed.

(** C4: an upload whose filename has an extension (the substring after the
    last dot, in lower case) outside the allow-list of seven types is
    answered 400, and nothing is sent to the store: the world is left as
    it was. *)
Theorem unsupported_extension_is_400 event headers w f :
  extractFileFromForm event = Returned f ->
  Js.toLowerCase (after_last "." (fileName f)) ∉ allowed_types ->
  exists r,
    uploadFile event headers w = (Returned r, w) /\
    statusCode r = 400%Z /\
    r = invalid_file_type headers.
Proof.
  intros Hex Hext. exists (invalid_file_type headers).
  split; [|split; reflexivity].
  apply (uploadFile_rejected _ _ _ _ Hex).
  apply not_true_is_false. by rewrite allowed_extension_iff.
Qed.

(** C5: an upload whose extension is one of the seven types sends one
    command to the store, a put whose content type is the canonical MIME
    type of the extension, whatever type the client declared; when the
    store accepts it the object is stored with that content type; and the
    resolution depends only on the extension in lower case. *)
Theorem supported_extension_canonical_type event headers w f type :
  extractFileFromForm event = Returned f ->
  Js.toLowerCase (after_last "." (fileName f)) = type ->
  type ∈ allowed_types ->
  exists mime r w',
    canonical_mime type = Some mime /\
    uploadFile event headers w = (Returned r, w') /\
    sent w' = sent w ++
      [PutObjectCommand (key_of (clock w) (fileName f)) (fileData f) mime
         (upload_metadata f)] /\
    (statusCode r = 200%Z ->
     exists object,
       bucket w' !! key_of (clock w) (fileName f) = Some object /\
       obj_ContentType object = Some mime /\
       obj_Body object = fileData f) /\
    (forall x declared,
       Js.toLowerCase x = type ->
       contentType_of (String "." x) declared = mime).
Proof.
  intros Hex Htype Hin.
  assert (Hext : Js.arr_includes ALLOWED_EXTENSIONS
                   (fileExtension_of (fileName f)) = true).
  { apply allowed_extension_iff. by rewrite Htype. }
  pose proof (contentType_of_canonical
    (Js.toLowerCase (after_last "." (fileName f))) type (fileType f)) as Hmime.
  rewrite toLowerCase_idemp in Hmime. specialize (Hmime Htype Hin).
  rewrite <- fileExtension_of_after_last in Hmime.
  assert (Hpure : forall x declared, Js.toLowerCase x = type ->
    contentType_of (String "." x) declared =
    contentType_of (fileExtension_of (fileName f)) (fileType f)).
  { intros x declared Hx.
    pose proof (contentType_of_canonical x type declared Hx Hin) as Hx'.
    congruence. }
  exists (contentType_of (fileExtension_of (fileName f)) (fileType f)).
  destruct (s3_fault (upload_command (clock w) f)) as [error|] eqn:Hfault.
  - eexists _, _. split; [exact Hmime|].
    split; [exact (uploadFile_store_fault _ headers _ _ _ Hex Hext Hfault)|].
    split; [reflexivity|]. split; [discriminate|exact Hpure].
  - eexists _, _. split; [exact Hmime|].
    split; [exact (uploadFile_stored _ headers _ _ Hex Hext Hfault)|].
    split; [reflexivity|]. split; [|exact Hpure].
    intros _. exists (uploaded_object (clock w) f).
    cbn [bucket]. rewrite lookup_insert_eq. repeat split.
Qed.

(** C6: when the parser finishes a multipart body that has no file part,
    the decode fails with "No file found in form data", and the upload
    flow answers 500 without sending anything to the store. *)
Theorem no_file_part_is_500 event headers w parts :
  emits event (events_of_parts 0 parts) ->
  files_of parts = [] ->
  extractFileFromForm event = Thrown (new_Error "No file found in form data") /\
  exists r,
    uploadFile event headers w = (Returned r, w) /\
    statusCode r = 500%Z /\
    res_body r = JSON_stringify (JObj
      [ ("error", JStr "Failed to upload file");
        ("details", JStr "No file found in form data") ]).
Proof.
  intros Hemit Hfiles.
  assert (Hex : extractFileFromForm event =
                Thrown (new_Error "No file found in form data")).
  { rewrite (extract_emits _ _ Hemit). unfold run_handlers.
    rewrite run_events_of_parts by reflexivity. rewrite Hfiles. reflexivity. }
  split; [exact Hex|].
  eexists. split; [exact (uploadFile_thrown _ headers w _ Hex)|].
  split; reflexivity.
Qed.

(** C10: for a filename without a dot the extension checked is the whole
    filename in lower case behind a dot, and the upload is answered 400
    exactly when that is not in [ALLOWED_EXTENSIONS]; so "txt" passes
    the check and "report" does not. *)
Theorem dotless_filename_is_its_extension event headers w f :
  extractFileFromForm event = Returned f ->
  occurs "." (fileName f) = false ->
  fileExtension_of (fileName f) = "." +:+ Js.toLowerCase (fileName f) /\
  (exists r w',
     uploadFile event headers w = (Returned r, w') /\
     (statusCode r = 400%Z <->
      "." +:+ Js.toLowerCase (fileName f) ∉ ALLOWED_EXTENSIONS)) /\
  Js.arr_includes ALLOWED_EXTENSIONS (fileExtension_of "txt") = true /\
  Js.arr_includes ALLOWED_EXTENSIONS (fileExtension_of "report") = false.
Proof.
  intros Hex Hdot.
  assert (Hext : fileExtension_of (fileName f) =
                 "." +:+ Js.toLowerCase (fileName f)).
  { rewrite fileExtension_of_after_last, after_last_no_sep by exact Hdot.
    reflexivity. }
  split; [exact Hext|]. split; [|split; reflexivity].
  assert (Hiff : Js.arr_includes ALLOWED_EXTENSIONS
                   (fileExtension_of (fileName f)) = true <->
                 "." +:+ Js.toLowerCase (fileName f) ∈ ALLOWED_EXTENSIONS).
  { rewrite <- Hext. apply arr_includes_elem_of. }
  destruct (Js.arr_includes ALLOWED_EXTENSIONS (fileExtension_of (fileName f)))
    eqn:Hin.
  - assert (Hno400 : forall r, statusCode r <> 400%Z ->
      statusCode r = 400%Z <->
      "." +:+ Js.toLowerCase (fileName f) ∉ ALLOWED_EXTENSIONS).
    { intros r Hr. split; [done|]. intros Hnot. destruct Hnot. by apply Hiff. }
    destruct (s3_fault (upload_command (clock w) f)) as [error|] eqn:Hfault.
    + eexists _, _.
      split; [exact (uploadFile_store_fault _ headers _ _ _ Hex Hin Hfault)|].
      by apply Hno400.
    + eexists _, _.
      split; [exact (uploadFile_stored _ headers _ _ Hex Hin Hfault)|].
      by apply Hno400.
  - eexists _, _.
    split; [exact (uploadFile_rejected _ headers w _ Hex Hin)|].
    split; [|reflexivity]. intros _ Hyes. apply Hiff in Hyes. discriminate.
Qed.

(** ** The claims about the decoder, the router, the keys and downloads *)

(** With a headers object in the envelope the first statement of the
    handler passes. *)
Lemma handler_WithHeaders event w :
  handler (WithHeaders event) w =
  try_catch
    (if String.eqb (httpMethod event) "OPTIONS" then
       mret (preflight_response getCorsHeaders)
     else
       match queryStringParameters event ≫= (fun q => q !! "action") with
       | Some a =>
           if String.eqb a "uploadFile" then uploadFile event getCorsHeaders
           else if String.eqb a "listDocuments" then listDocuments getCorsHeaders
           else if String.eqb a "downloadFile" then downloadFile event getCorsHeaders
           else mret (invalid_action_response getCorsHeaders)
       | None => mret (invalid_action_response getCorsHeaders)
       end)
    (fun error => mret (internal_server_error error)) w.
Proof. reflexivity. Qed.

(** C7 (as the code has it): for a request whose envelope has a headers
    object, the router answers a preflight (OPTIONS) request at once with
    200 and the CORS headers, touching nothing; otherwise it hands the
    request to the upload, list or download flow named by [action], and
    answers 400 "Invalid action specified" for any other action and for
    none. *)
Theorem handler_routes_by_action event w :
  (httpMethod event = "OPTIONS" ->
   handler (WithHeaders event) w =
     (Returned (preflight_response getCorsHeaders), w) /\
   statusCode (preflight_response getCorsHeaders) = 200%Z /\
   map_to_list (res_headers (preflight_response getCorsHeaders)) ≡ₚ
     [ ("Access-Control-Allow-Origin", "*");
       ("Access-Control-Allow-Methods", "GET, POST, PUT, DELETE, OPTIONS");
       ("Access-Control-Allow-Headers",
        "Content-Type,X-Amz-Date,Authorization,X-Api-Key,X-Requested-With,Accept");
       ("Access-Control-Allow-Credentials", "true");
       ("Access-Control-Max-Age", "86400") ]) /\
  (httpMethod event <> "OPTIONS" ->
   let action := queryStringParameters event ≫= (fun q => q !! "action") in
   (action = Some "uploadFile" ->
    handler (WithHeaders event) w = uploadFile event getCorsHeaders w) /\
   (action = Some "listDocuments" ->
    handler (WithHeaders event) w =
    try_catch (listDocuments getCorsHeaders)
      (fun error => mret (internal_server_error error)) w) /\
   (action = Some "downloadFile" ->
    handler (WithHeaders event) w = downloadFile event getCorsHeaders w) /\
   (action <> Some "uploadFile" -> action <> Some "listDocuments" ->
    action <> Some "downloadFile" ->
    handler (WithHeaders event) w =
      (Returned (invalid_action_response getCorsHeaders), w) /\
    statusCode (invalid_action_response getCorsHeaders) = 400%Z)).
Proof.
  split.
  - intros Hm. split; [|split; [reflexivity|]].
    + rewrite handler_WithHeaders. unfold try_catch. rewrite Hm. reflexivity.
    + unfold preflight_response, getCorsHeaders. cbn [res_headers].
      rewrite !map_to_list_insert, map_to_list_empty by done. reflexivity.
  - intros Hm%String.eqb_neq action. rewrite handler_WithHeaders.
    unfold try_catch. rewrite Hm. fold action. repeat split.
    + intros ->. cbn [String.eqb Ascii.eqb Bool.eqb].
      destruct (uploadFile event getCorsHeaders w) as [[r|error|] w'] eqn:Hup;
        [reflexivity| |reflexivity].
      destruct (uploadFile_no_throw _ _ _ _ _ Hup).
    + intros ->. reflexivity.
    + intros ->. cbn [String.eqb Ascii.eqb Bool.eqb].
      destruct (downloadFile event getCorsHeaders w) as [[r|error|] w'] eqn:Hdown;
        [reflexivity| |reflexivity].
      destruct (downloadFile_no_throw _ _ _ _ _ Hdown).
    + destruct action as [a|]; [|reflexivity].
      destruct (String.eqb_spec a "uploadFile") as [->|_]; [done|].
      destruct (String.eqb_spec a "listDocuments") as [->|_]; [done|].
      destruct (String.eqb_spec a "downloadFile") as [->|_]; [done|].
      reflexivity.
Qed.

(** C8: a key at which an upload changes the bucket is
    [documents/<timestamp>-<filename>], under the prefix [documents/]; a
    successful upload returns such a key and the bucket holds it; and every
    entry of a listing has a key under the prefix and, as [fileName], the
    substring of its key after the last [/]. *)
Theorem keys_under_documents_prefix event headers w :
  (forall o w' key,
     uploadFile event headers w = (o, w') ->
     bucket w' !! key <> bucket w !! key ->
     String.prefix "documents/" key = true /\
     exists f,
       extractFileFromForm event = Returned f /\
       key = "documents/" +:+ pretty (clock w) +:+ "-" +:+ fileName f) /\
  (forall r w',
     uploadFile event headers w = (Returned r, w') ->
     statusCode r = 200%Z ->
     exists key,
       returned_key r = Some key /\
       String.prefix "documents/" key = true /\
       is_Some (bucket w' !! key)) /\
  (forall r w' doc,
     listDocuments headers w = (Returned r, w') ->
     doc ∈ listed r ->
     exists key size lastModified,
       String.prefix "documents/" key = true /\
       is_Some (bucket w !! key) /\
       doc = JObj [ ("key", JStr key);
                    ("fileName", JStr (after_last "/" key));
                    ("size", JNum size);
                    ("lastModified", JDate lastModified) ]).
Proof.
  split; [|split].
  - intros o w' key Hup Hkey.
    destruct (extractFileFromForm event) as [f|error|] eqn:Hex.
    + destruct (Js.arr_includes ALLOWED_EXTENSIONS (fileExtension_of (fileName f)))
        eqn:Hext.
      * destruct (s3_fault (upload_command (clock w) f)) as [error|] eqn:Hfault.
        -- rewrite (uploadFile_store_fault _ _ _ _ _ Hex Hext Hfault) in Hup.
           injection Hup as _ <-. done.
        -- rewrite (uploadFile_stored _ _ _ _ Hex Hext Hfault) in Hup.
           injection Hup as _ <-. cbn [bucket] in Hkey.
           destruct (decide (key_of (clock w) (fileName f) = key)) as [<-|Hne].
           ++ split; [apply key_of_prefix|]. exists f. split; reflexivity.
           ++ by rewrite lookup_insert_ne in Hkey.
      * rewrite (uploadFile_rejected _ _ _ _ Hex Hext) in Hup.
        injection Hup as _ <-. done.
    + rewrite (uploadFile_thrown _ _ _ _ Hex) in Hup. injection Hup as _ <-. done.
    + rewrite (uploadFile_pending _ _ _ Hex) in Hup. injection Hup as _ <-. done.
  - intros r w' Hup Hstatus.
    destruct (uploadFile_returned _ _ _ _ _ Hup)
      as [(error & _ & -> & _)
         |(f & _ & [(_ & -> & _)
                   |(_ & [(error & _ & -> & _)|(_ & -> & ->)])])];
      try discriminate Hstatus.
    exists (key_of (clock w) (fileName f)). split; [reflexivity|].
    split; [apply key_of_prefix|]. cbn [bucket]. rewrite lookup_insert_eq. eauto.
  - intros r w' doc Hlist Hdoc.
    unfold listDocuments, mbind, Async_bind, send_ListObjectsV2 in Hlist.
    destruct (s3_fault _); [discriminate|].
    injection Hlist as <- _. cbn in Hdoc.
    match type of Hdoc with
    | doc ∈ match match ?items with _ => _ end with _ => _ end =>
        assert (Hin : doc ∈ map document_of items)
          by (destruct items; [by apply elem_of_nil in Hdoc|exact Hdoc]);
        clear Hdoc
    end.
    apply list_elem_of_fmap in Hin as (item & -> & Hitem).
    apply list_elem_of_lookup in Hitem as (i & Hitem).
    apply lookup_take_Some in Hitem as (Hitem & _).
    apply list_elem_of_lookup_2, list_elem_of_fmap in Hitem
      as ([key object] & -> & Hentry).
    apply list_elem_of_filter in Hentry as (Hprefix & Hentry).
    apply elem_of_map_to_list in Hentry.
    exists key, (N.of_nat (length (obj_Body object))), (obj_LastModified object).
    split; [exact Hprefix|]. split; [cbn [bucket log_sent] in Hentry; eauto|].
    unfold document_of. rewrite pop_split_after_last. reflexivity.
Qed.

(** C9: on the attachment path of a download the two custom headers are
    read from the object's metadata under the lower-case names
    [documentvaluecode] and [documentvaluetypecode]; when the metadata
    has no entry under such a name, as when it carries the values under
    the names [documentValueCode] and [documentValueTypeCode] written by
    the upload, the header is "NA". *)
Theorem attachment_headers_read_lowercase_names event headers w key object :
  queryStringParameters event ≫= (fun q => q !! "key") = Some key ->
  key <> "" ->
  s3_fault (GetObjectCommand key) = None ->
  bucket w !! key = Some object ->
  Js.or_default (obj_ContentType object) "application/octet-stream"
    <> "text/plain" ->
  let metadata := default [] (obj_Metadata object) in
  exists r w',
    downloadFile event headers w = (Returned r, w') /\
    statusCode r = 200%Z /\
    res_headers r !! "X-Document-Value-Code" =
      Some (Js.or_default (Js.prop "documentvaluecode" metadata) "NA") /\
    res_headers r !! "X-Document-Value-Type-Code" =
      Some (Js.or_default (Js.prop "documentvaluetypecode" metadata) "NA") /\
    (Js.prop "documentvaluecode" metadata = None ->
     res_headers r !! "X-Document-Value-Code" = Some "NA") /\
    (Js.prop "documentvaluetypecode" metadata = None ->
     res_headers r !! "X-Document-Value-Type-Code" = Some "NA") /\
    (forall code typeCode,
       metadata = [ ("documentValueCode", code);
                    ("documentValueTypeCode", typeCode) ] ->
       res_headers r !! "X-Document-Value-Code" = Some "NA" /\
       res_headers r !! "X-Document-Value-Type-Code" = Some "NA").
Proof.
  intros Hkey Hne Hfault Hobj Hct metadata.
  pose proof (downloadFile_found _ headers _ _ _ Hkey Hne Hfault Hobj) as Hdown.
  cbn zeta in Hdown. apply String.eqb_neq in Hct. rewrite Hct in Hdown.
  eexists _, _. split; [exact Hdown|]. split; [reflexivity|].
  fold metadata. cbn [res_headers attachment].
  assert (Hcode : forall v (m : gmap string string),
    <["X-Document-Value-Type-Code" := v]> m !! "X-Document-Value-Code" =
    m !! "X-Document-Value-Code") by (intros; by apply lookup_insert_ne).
  rewrite Hcode, !lookup_insert_eq.
  split; [reflexivity|]. split; [reflexivity|].
  split; [by intros ->|]. split; [by intros ->|].
  intros code typeCode ->. split; reflexivity.
Qed.

(** ** The round trip *)


End Flows.

(** ** The claims on sample requests *)

Lemma sample_emits parts :
  @emits (sample_runtime parts) upload_event (events_of_parts 0 parts).
Proof. do 3 eexists. repeat split; reflexivity. Defined.

Lemma not_in_allowed_types_exe : "exe" ∉ allowed_types.
Proof.
  intros Hin. unfold allowed_types in Hin.
  repeat (apply elem_of_cons in Hin as [Hin|Hin]; [discriminate Hin|]).
  by apply elem_of_nil in Hin.
Defined.

(** The example of the specification: [report.pdf] uploaded with
    [documentValueCode=INV001] gets a key [documents/<digits>-report.pdf]
    and the content type [application/pdf]; on a store that returns
    metadata names in lower case the download gives the bytes back and the
    header [X-Document-Value-Code: INV001]. *)
Example report_pdf_roundtrip :
  report_upload.1 =
    Returned (upload_succeeded getCorsHeaders "documents/1700000000000-report.pdf"
      {| fileData := ["%"; "P"; "D"; "F"; "-"; "1"; "."; "4"]%byte;
         fileName := "report.pdf"; fileType := "application/octet-stream";
         documentValueCode := "INV001"; documentValueTypeCode := "" |}) /\
  bucket report_upload.2 !! "documents/1700000000000-report.pdf"
    ≫= obj_ContentType = Some "application/pdf" /\
  res_body <$> returned report_download.1 = Some (Raw "JVBERi0xLjQ=") /\
  returned report_download.1 ≫= downloaded_content =
    Some ["%"; "P"; "D"; "F"; "-"; "1"; "."; "4"]%byte /\
  returned report_download.1 ≫= (fun r => res_headers r !! "X-Document-Value-Code") =
    Some "INV001" /\
  returned report_download.1 ≫= (fun r => res_headers r !! "X-Document-Value-Type-Code") =
    Some "NA".
Proof. repeat split; vm_compute; reflexivity. Qed.


(** C2, as stated, fails: without a content-type header, and with one that
    is not multipart, the upload flow answers 500, not 400. *)
Lemma not_multipart_upload_is_not_400 :
  let rt := sample_runtime [sample_pdf] in
  let missing := sample_event "POST" (Some {["action" := "uploadFile"]}) None in
  let json :=
    sample_event "POST" (Some {["action" := "uploadFile"]})
      (Some "application/json") in
  contentType_header missing = None /\
  contentType_header json = Some "application/json" /\
  Js.includes "multipart/form-data" "application/json" = false /\
  (exists r w',
     @uploadFile rt missing getCorsHeaders empty_world = (Returned r, w') /\
     statusCode r = 500%Z /\ statusCode r <> 400%Z) /\
  (exists r w',
     @uploadFile rt json getCorsHeaders empty_world = (Returned r, w') /\
     statusCode r = 500%Z /\ statusCode r <> 400%Z).
Proof.
  intros rt missing json. do 3 (split; [reflexivity|]).
  split; eexists _, _; (split; [reflexivity|]); split; (reflexivity || discriminate).
Qed.

Lemma upload_not_multipart_is_500_witness :
  let rt := sample_runtime [sample_pdf] in
  let event :=
    sample_event "POST" (Some {["action" := "uploadFile"]})
      (Some "application/json") in
  @extractFileFromForm rt event =
    Thrown (new_Error "Not a multipart/form-data request") /\
  exists r,
    @uploadFile rt event getCorsHeaders empty_world = (Returned r, empty_world) /\
    statusCode r = 500%Z /\
    res_body r = JSON_stringify (JObj
      [ ("error", JStr "Failed to upload file");
        ("details", JStr "Not a multipart/form-data request") ]).
Proof.
  intros rt event. apply (@upload_not_multipart_is_500 rt event).
  right. exists "application/json". split; reflexivity.
Defined.

Lemma unsupported_extension_is_400_witness :
  let rt := sample_runtime [sample_exe] in
  exists r,
    @uploadFile rt upload_event getCorsHeaders empty_world = (Returned r, empty_world) /\
    statusCode r = 400%Z /\
    r = invalid_file_type getCorsHeaders.
Proof.
  intros rt.
  eapply (@unsupported_extension_is_400 rt upload_event getCorsHeaders empty_world).
  - reflexivity.
  - exact not_in_allowed_types_exe.
Defined.

Lemma supported_extension_canonical_type_witness :
  let rt := sample_runtime [sample_txt] in
  let f := {| fileData := ["h"; "i"]%byte; fileName := "notes.TXT";
              fileType := "application/octet-stream";
              documentValueCode := ""; documentValueTypeCode := "" |} in
  exists mime r w',
    canonical_mime "txt" = Some mime /\
    @uploadFile rt upload_event getCorsHeaders empty_world = (Returned r, w') /\
    sent w' = sent empty_world ++
      [PutObjectCommand (key_of (clock empty_world) (fileName f)) (fileData f)
         mime (upload_metadata f)] /\
    (statusCode r = 200%Z ->
     exists object,
       bucket w' !! key_of (clock empty_world) (fileName f) = Some object /\
       obj_ContentType object = Some mime /\
       obj_Body object = fileData f) /\
    (forall x declared,
       Js.toLowerCase x = "txt" ->
       contentType_of (String "." x) declared = mime).
Proof.
  intros rt f.
  apply (@supported_extension_canonical_type rt upload_event getCorsHeaders
           empty_world f "txt").
  - reflexivity.
  - reflexivity.
  - unfold allowed_types. do 5 apply list_elem_of_further. apply list_elem_of_here.
Defined.

Lemma no_file_part_is_500_witness :
  let rt := sample_runtime [sample_code] in
  @extractFileFromForm rt upload_event =
    Thrown (new_Error "No file found in form data") /\
  exists r,
    @uploadFile rt upload_event getCorsHeaders empty_world = (Returned r, empty_world) /\
    statusCode r = 500%Z /\
    res_body r = JSON_stringify (JObj
      [ ("error", JStr "Failed to upload file");
        ("details", JStr "No file found in form data") ]).
Proof.
  intros rt.
  apply (@no_file_part_is_500 rt upload_event getCorsHeaders empty_world [sample_code]).
  - apply sample_emits.
  - reflexivity.
Defined.

Lemma handler_routes_by_action_witness :
  let rt := report_runtime in
  @handler rt (WithHeaders (sample_event "OPTIONS" None None)) empty_world =
    (Returned (preflight_response getCorsHeaders), empty_world) /\
  @handler rt (WithHeaders upload_event) empty_world =
    @uploadFile rt upload_event getCorsHeaders empty_world /\
  @handler rt
    (WithHeaders (sample_event "GET" (Some {["action" := "listDocuments"]}) None))
    camel_world =
    try_catch (@listDocuments rt getCorsHeaders)
      (fun error => mret (internal_server_error error)) camel_world /\
  @handler rt (WithHeaders (download_event "documents/1-scan.png")) camel_world =
    @downloadFile rt (download_event "documents/1-scan.png") getCorsHeaders
      camel_world /\
  @handler rt
    (WithHeaders (sample_event "GET" (Some {["action" := "deleteFile"]}) None))
    empty_world =
    (Returned (invalid_action_response getCorsHeaders), empty_world) /\
  @handler rt (WithHeaders (sample_event "GET" None None)) empty_world =
    (Returned (invalid_action_response getCorsHeaders), empty_world).
Proof.
  intros rt. split; [|split; [|split; [|split; [|split]]]].
  - apply (proj1 (@handler_routes_by_action rt
      (sample_event "OPTIONS" None None) empty_world)). reflexivity.
  - apply (proj2 (@handler_routes_by_action rt upload_event empty_world));
      [discriminate|reflexivity].
  - apply (proj2 (@handler_routes_by_action rt
      (sample_event "GET" (Some {["action" := "listDocuments"]}) None)
      camel_world)); [discriminate|reflexivity].
  - apply (proj2 (@handler_routes_by_action rt
      (download_event "documents/1-scan.png") camel_world));
      [discriminate|reflexivity].
  - apply (proj2 (@handler_routes_by_action rt
      (sample_event "GET" (Some {["action" := "deleteFile"]}) None)
      empty_world)); discriminate.
  - apply (proj2 (@handler_routes_by_action rt
      (sample_event "GET" None None) empty_world)); discriminate.
Defined.

(** C7, as stated, fails: a preflight request whose envelope has no headers
    object is not answered 200 but 500 "Internal server error", by the
    router's catch-all, for a null and for an absent [headers] alike. *)
Lemma preflight_without_headers_is_500 :
  (exists r,
     @handler report_runtime (WithoutHeaders js_null "OPTIONS" None None false)
       empty_world = (Returned r, empty_world) /\
     statusCode r = 500%Z /\ statusCode r <> 200%Z /\
     r <> preflight_response getCorsHeaders /\
     res_body r = JSON_stringify (JObj
       [ ("error", JStr "Internal server error");
         ("details",
          JStr "Cannot read properties of null (reading 'content-type')") ])) /\
  (exists r,
     @handler report_runtime
       (WithoutHeaders js_undefined "OPTIONS" None None false)
       empty_world = (Returned r, empty_world) /\
     statusCode r = 500%Z /\ statusCode r <> 200%Z).
Proof.
  split; eexists; (split; [reflexivity|]); (split; [reflexivity|]);
    repeat split; discriminate.
Qed.

Lemma keys_under_documents_prefix_witness :
  let rt := report_runtime in
  (exists key,
     returned report_upload.1 ≫= returned_key = Some key /\
     String.prefix "documents/" key = true /\
     is_Some (bucket report_upload.2 !! key)) /\
  (forall r w' doc,
     @listDocuments rt getCorsHeaders camel_world = (Returned r, w') ->
     doc ∈ listed r ->
     exists key size lastModified,
       String.prefix "documents/" key = true /\
       is_Some (bucket camel_world !! key) /\
       doc = JObj [ ("key", JStr key);
                    ("fileName", JStr (after_last "/" key));
                    ("size", JNum size);
                    ("lastModified", JDate lastModified) ]).
Proof.
  intros rt. split.
  - destruct (proj1 (proj2 (@keys_under_documents_prefix rt upload_event
      getCorsHeaders empty_world))
      (upload_succeeded getCorsHeaders "documents/1700000000000-report.pdf"
         {| fileData := ["%"; "P"; "D"; "F"; "-"; "1"; "."; "4"]%byte;
            fileName := "report.pdf"; fileType := "application/octet-stream";
            documentValueCode := "INV001"; documentValueTypeCode := "" |})
      report_upload.2) as (key & Hkey & Hprefix & Hsome).
    + vm_compute. reflexivity.
    + reflexivity.
    + exists key. split; [|split]; [|exact Hprefix|exact Hsome].
      rewrite <- Hkey. vm_compute. reflexivity.
  - exact (proj2 (proj2 (@keys_under_documents_prefix rt upload_event
      getCorsHeaders camel_world))).
Defined.

Lemma attachment_headers_read_lowercase_names_witness :
  exists r w',
    @downloadFile report_runtime (download_event "documents/1-scan.png")
      getCorsHeaders camel_world = (Returned r, w') /\
    statusCode r = 200%Z /\
    res_headers r !! "X-Document-Value-Code" = Some "NA" /\
    res_headers r !! "X-Document-Value-Type-Code" = Some "NA".
Proof.
  destruct (@attachment_headers_read_lowercase_names report_runtime
    (download_event "documents/1-scan.png") getCorsHeaders camel_world
    "documents/1-scan.png" camel_object)
    as (r & w' & Hdown & Hstatus & _ & _ & _ & _ & Hcamel).
  - reflexivity.
  - discriminate.
  - reflexivity.
  - reflexivity.
  - discriminate.
  - exists r, w'. split; [exact Hdown|]. split; [exact Hstatus|].
    exact (Hcamel "INV001" "T1" eq_refl).
Defined.

Lemma dotless_filename_is_its_extension_witness :
  let rt := sample_runtime [sample_dotless] in
  let f := {| fileData := ["h"; "i"]%byte; fileName := "txt";
              fileType := "text/html";
              documentValueCode := ""; documentValueTypeCode := "" |} in
  fileExtension_of (fileName f) = "." +:+ Js.toLowerCase (fileName f) /\
  (exists r w',
     @uploadFile rt upload_event getCorsHeaders empty_world = (Returned r, w') /\
     (statusCode r = 400%Z <->
      "." +:+ Js.toLowerCase (fileName f) ∉ ALLOWED_EXTENSIONS)) /\
  Js.arr_includes ALLOWED_EXTENSIONS (fileExtension_of "txt") = true /\
  Js.arr_includes ALLOWED_EXTENSIONS (fileExtension_of "report") = false.
Proof.
  intros rt f.
  apply (@dotless_filename_is_its_extension rt upload_event getCorsHeaders
           empty_world f); reflexivity.
Defined.

(** A dotless [txt] is stored as [text/plain]; a dotless [report] is
    answered 400. *)
Example dotless_txt_and_report :
  statusCode <$> returned
    (@uploadFile (sample_runtime [sample_dotless]) upload_event getCorsHeaders
       empty_world).1 = Some 200%Z /\
  statusCode <$> returned
    (@uploadFile
       (sample_runtime [FilePart "file" "report" "7bit" "text/plain" []])
       upload_event getCorsHeaders empty_world).1 = Some 400%Z.
Proof. split; vm_compute; reflexivity. Qed.


(** ** The download flow, case by case *)

Section Download.
Context `{!Runtime}.

Lemma downloadFile_without_key event headers w :
  Js.falsy (key_param event) = true ->
  downloadFile event headers w = (Returned (key_required headers), w).
Proof.
  unfold downloadFile, key_param.
  destruct (queryStringParameters event ≫= _) as [[|c k]|];
    (reflexivity || discriminate).
Qed.

Lemma downloadFile_fault event headers w key error :
  key_param event = Some key -> key <> "" ->
  s3_fault (GetObjectCommand key) = Some error ->
  downloadFile event headers w =
  (Returned (if String.eqb (err_name error) "NoSuchKey"
             then document_not_found headers
             else download_failed headers error),
   log_sent (GetObjectCommand key) w).
Proof.
  unfold key_param. intros Hkey Hne Hfault. unfold downloadFile. rewrite Hkey.
  destruct key as [|c k]; [done|].
  unfold try_catch, mbind, Async_bind, send_GetObject. rewrite Hfault.
  destruct (String.eqb (err_name error) "NoSuchKey"); reflexivity.
Qed.

Lemma downloadFile_missing event headers w key :
  key_param event = Some key -> key <> "" ->
  s3_fault (GetObjectCommand key) = None ->
  bucket w !! key = None ->
  downloadFile event headers w =
  (Returned (document_not_found headers), log_sent (GetObjectCommand key) w).
Proof.
  unfold key_param. intros Hkey Hne Hfault Hobj. unfold downloadFile. rewrite Hkey.
  destruct key as [|c k]; [done|].
  unfold try_catch, mbind, Async_bind, send_GetObject. rewrite Hfault.
  cbn [bucket log_sent]. rewrite Hobj. reflexivity.
Qed.

(** The key of a request is falsy, or it is a non-empty string. *)
Lemma key_param_cases event :
  Js.falsy (key_param event) = true \/
  exists key, key_param event = Some key /\ key <> "".
Proof.
  destruct (key_param event) as [[|c k]|]; [left; reflexivity| |left; reflexivity].
  right. eexists. split; [reflexivity|discriminate].
Qed.

(** X1: the status of a download is read off the key and the store: 400
    without a key (absent or empty), 404 when the store fails with
    [NoSuchKey] or has no object under the key, 500 for any other failure of
    the store, 200 otherwise; the flow always returns. *)
Theorem download_status_table event headers w :
  exists r w',
    downloadFile event headers w = (Returned r, w') /\
    statusCode r =
      match key_param event with
      | Some (String c k) =>
          match s3_fault (GetObjectCommand (String c k)) with
          | Some error =>
              if String.eqb (err_name error) "NoSuchKey" then 404%Z else 500%Z
          | None =>
              match bucket w !! String c k with
              | Some _ => 200%Z
              | None => 404%Z
              end
          end
      | _ => 400%Z
      end.
Proof.
  destruct (key_param_cases event) as [Hfalsy|(key & Hkey & Hne)].
  - eexists _, _. split; [exact (downloadFile_without_key _ headers w Hfalsy)|].
    destruct (key_param event) as [[|c k]|]; (reflexivity || discriminate).
  - rewrite Hkey. destruct key as [|c k]; [done|].
    destruct (s3_fault (GetObjectCommand (String c k))) as [error|] eqn:Hfault.
    + eexists _, _.
      split; [exact (downloadFile_fault _ headers w _ _ Hkey Hne Hfault)|].
      destruct (String.eqb (err_name error) "NoSuchKey"); reflexivity.
    + destruct (bucket w !! String c k) as [object|] eqn:Hobj.
      * eexists _, _.
        split; [exact (downloadFile_found _ headers w _ _ Hkey Hne Hfault Hobj)|].
        cbn zeta. destruct (String.eqb _ "text/plain"); reflexivity.
      * eexists _, _.
        split; [exact (downloadFile_missing _ headers w _ Hkey Hne Hfault Hobj)|].
        reflexivity.
Qed.

(** X2: a download never changes the bucket or the clock; without a key it
    sends nothing to the store, with a key exactly one command, the
    [GetObject] for that key. *)
Theorem download_only_reads event headers w o w' :
  downloadFile event headers w = (o, w') ->
  bucket w' = bucket w /\ clock w' = clock w /\
  sent w' = sent w ++
    match key_param event with
    | Some (String c k) => [GetObjectCommand (String c k)]
    | _ => []
    end.
Proof.
  intros Hdown.
  destruct (key_param_cases event) as [Hfalsy|(key & Hkey & Hne)].
  - rewrite (downloadFile_without_key _ headers w Hfalsy) in Hdown.
    injection Hdown as _ <-.
    destruct (key_param event) as [[|c k]|]; try discriminate;
      rewrite app_nil_r; done.
  - rewrite Hkey. destruct key as [|c k]; [done|].
    destruct (s3_fault (GetObjectCommand (String c k))) as [error|] eqn:Hfault.
    + rewrite (downloadFile_fault _ headers w _ _ Hkey Hne Hfault) in Hdown.
      injection Hdown as _ <-. done.
    + destruct (bucket w !! String c k) as [object|] eqn:Hobj.
      * rewrite (downloadFile_found _ headers w _ _ Hkey Hne Hfault Hobj) in Hdown.
        injection Hdown as _ <-. done.
      * rewrite (downloadFile_missing _ headers w _ Hkey Hne Hfault Hobj) in Hdown.
        injection Hdown as _ <-. done.
Qed.

(** X3: a download of any stored object gives its bytes back (the content
    read from base64 is the object's body); it is the JSON envelope, without
    the base64 flag and with content type [application/json], exactly when
    the object's content type is [text/plain], and otherwise the base64
    attachment, flagged, with the object's content type
    ([application/octet-stream] when it has none) and the byte length as
    [Content-Length]. *)
Theorem download_serves_stored_object event headers w key object :
  key_param event = Some key -> key <> "" ->
  s3_fault (GetObjectCommand key) = None ->
  bucket w !! key = Some object ->
  let contentType :=
    Js.or_default (obj_ContentType object) "application/octet-stream" in
  exists r w',
    downloadFile event headers w = (Returned r, w') /\
    statusCode r = 200%Z /\
    downloaded_content r = Some (obj_Body object) /\
    (contentType = "text/plain" ->
     res_isBase64Encoded r = None /\
     res_headers r !! "Content-Type" = Some "application/json" /\
     res_headers r !! "Content-Disposition" = headers !! "Content-Disposition") /\
    (contentType <> "text/plain" ->
     res_isBase64Encoded r = Some true /\
     res_body r = Raw (Base64.encode (obj_Body object)) /\
     res_headers r !! "Content-Type" = Some contentType /\
     res_headers r !! "Content-Length" =
       Some (pretty (N.of_nat (length (obj_Body object))))).
Proof.
  intros Hkey Hne Hfault Hobj contentType.
  pose proof (downloadFile_found _ headers w _ _ Hkey Hne Hfault Hobj) as Hdown.
  cbn zeta in Hdown. fold contentType in Hdown.
  eexists _, _. split; [exact Hdown|].
  destruct (String.eqb_spec contentType "text/plain") as [Htext|Hbin].
  - split; [reflexivity|]. split.
    { unfold downloaded_content. cbn. by rewrite base64_decode_encode. }
    split; [|done]. intros _. cbn [res_isBase64Encoded res_headers envelope].
    split; [reflexivity|]. rewrite lookup_insert_eq, lookup_insert_ne by done. done.
  - split; [reflexivity|]. split.
    { unfold downloaded_content. cbn. by rewrite base64_decode_encode. }
    split; [done|]. intros _. cbn [res_isBase64Encoded res_headers res_body attachment].
    split; [reflexivity|]. split; [reflexivity|].
    rewrite !(lookup_insert_ne _ _ "Content-Type") by done.
    rewrite lookup_insert_eq.
    rewrite !(lookup_insert_ne _ _ "Content-Length") by done.
    rewrite lookup_insert_eq. done.
Qed.

End Download.

(** ** The upload and list flows and the router, case by case *)

Section Router.
Context `{!Runtime}.

Lemma allowed_types_includes f :
  Js.toLowerCase (after_last "." (fileName f)) ∈ allowed_types ->
  Js.arr_includes ALLOWED_EXTENSIONS (fileExtension_of (fileName f)) = true.
Proof. apply allowed_extension_iff. Qed.

(** X4: an upload that returns either stored the file (200: the bucket gets
    exactly the one new object, under the returned key, holding the decoded
    bytes) or left the bucket as it was (400 or 500): there is no partial
    success. *)
Theorem upload_all_or_nothing event headers w r w' :
  uploadFile event headers w = (Returned r, w') ->
  (statusCode r = 200%Z /\
   exists f object,
     extractFileFromForm event = Returned f /\
     returned_key r = Some (key_of (clock w) (fileName f)) /\
     obj_Body object = fileData f /\
     bucket w' = <[key_of (clock w) (fileName f) := object]> (bucket w)) \/
  ((statusCode r = 400%Z \/ statusCode r = 500%Z) /\ bucket w' = bucket w).
Proof.
  intros Hup.
  destruct (uploadFile_returned _ _ _ _ _ Hup)
    as [(error & _ & -> & ->)
       |(f & Hex & [(_ & -> & ->)
                   |(_ & [(error & _ & -> & ->)|(_ & -> & ->)])])].
  - right. split; [right; reflexivity|reflexivity].
  - right. split; [left; reflexivity|reflexivity].
  - right. split; [right; reflexivity|reflexivity].
  - left. split; [reflexivity|].
    exists f, (uploaded_object (clock w) f). repeat split. exact Hex.
Qed.

(** X5: when the store refuses the put of an accepted file, the upload is
    answered 500 "Failed to upload file" with the store's message as
    details; the put was sent once and the bucket is unchanged. *)
Theorem upload_store_failure_is_500 event headers w f error :
  extractFileFromForm event = Returned f ->
  Js.toLowerCase (after_last "." (fileName f)) ∈ allowed_types ->
  s3_fault (upload_command (clock w) f) = Some error ->
  exists r w',
    uploadFile event headers w = (Returned r, w') /\
    statusCode r = 500%Z /\
    res_body r = JSON_stringify (JObj
      [ ("error", JStr "Failed to upload file");
        ("details", JStr (err_message error)) ]) /\
    bucket w' = bucket w /\
    sent w' = sent w ++ [upload_command (clock w) f].
Proof.
  intros Hex Hext Hfault. eexists _, _.
  split; [exact (uploadFile_store_fault _ headers w _ _ Hex
                   (allowed_types_includes _ Hext) Hfault)|].
  repeat split.
Qed.

Lemma uploadFile_effect event headers w o w' :
  uploadFile event headers w = (o, w') ->
  clock w' = clock w /\
  (w' = w /\ (forall r, o = Returned r -> statusCode r <> 200%Z) \/
   (exists c, sent w' = sent w ++ [c]) /\
   (bucket w' = bucket w \/ exists r, o = Returned r /\ statusCode r = 200%Z)).
Proof.
  intros Hup.
  destruct (extractFileFromForm event) as [f|error|] eqn:Hex.
  - destruct (Js.arr_includes ALLOWED_EXTENSIONS (fileExtension_of (fileName f)))
      eqn:Hext.
    + destruct (s3_fault (upload_command (clock w) f)) as [error|] eqn:Hfault.
      * rewrite (uploadFile_store_fault _ _ _ _ _ Hex Hext Hfault) in Hup.
        injection Hup as <- <-. split; [reflexivity|]. right. split; [eauto|].
        left. reflexivity.
      * rewrite (uploadFile_stored _ _ _ _ Hex Hext Hfault) in Hup.
        injection Hup as <- <-. split; [reflexivity|]. right. split; [eauto|].
        right. eauto.
    + rewrite (uploadFile_rejected _ _ _ _ Hex Hext) in Hup.
      injection Hup as <- <-. split; [reflexivity|]. left.
      split; [reflexivity|]. by intros r [= <-].
  - rewrite (uploadFile_thrown _ _ _ _ Hex) in Hup.
    injection Hup as <- <-. split; [reflexivity|]. left.
    split; [reflexivity|]. by intros r [= <-].
  - rewrite (uploadFile_pending _ _ _ Hex) in Hup.
    injection Hup as <- <-. split; [reflexivity|]. left.
    split; [reflexivity|]. discriminate.
Qed.

Lemma uploadFile_headers event headers w r w' :
  uploadFile event headers w = (Returned r, w') -> res_headers r = headers.
Proof.
  intros Hup.
  destruct (uploadFile_returned _ _ _ _ _ Hup)
    as [(error & _ & -> & _)
       |(f & _ & [(_ & -> & _)
                 |(_ & [(error & _ & -> & _)|(_ & -> & _)])])];
    reflexivity.
Qed.

Lemma uploadFile_not_internal_error event headers w r w' msg :
  uploadFile event headers w = (Returned r, w') ->
  res_body r <> JSON_stringify (JObj
    [ ("error", JStr "Internal server error"); ("details", JStr msg) ]).
Proof.
  intros Hup.
  destruct (uploadFile_returned _ _ _ _ _ Hup)
    as [(error & _ & -> & _)
       |(f & _ & [(_ & -> & _)
                 |(_ & [(error & _ & -> & _)|(_ & -> & _)])])];
    discriminate.
Qed.

(** The list flow: the store's failure is thrown, its answer is mapped
    entry by entry. *)
Lemma listDocuments_fault headers w error :
  s3_fault (ListObjectsV2Command "documents/") = Some error ->
  listDocuments headers w =
  (Thrown error, log_sent (ListObjectsV2Command "documents/") w).
Proof.
  intros Hfault. unfold listDocuments, mbind, Async_bind, send_ListObjectsV2.
  rewrite Hfault. reflexivity.
Qed.

Lemma listDocuments_answer headers w :
  s3_fault (ListObjectsV2Command "documents/") = None ->
  listDocuments headers w =
  (Returned (listing headers
     (map document_of
        (take 1000 (map item_of (entries_under "documents/" (bucket w)))))),
   log_sent (ListObjectsV2Command "documents/") w).
Proof.
  intros Hfault. unfold listDocuments, mbind, Async_bind, send_ListObjectsV2.
  rewrite Hfault. cbn [bucket log_sent Contents]. fold (entries_under "documents/" (bucket w)).
  destruct (take 1000 _); reflexivity.
Qed.

(** The download flow answers with the headers it was given, but for the
    five it sets itself. *)
Lemma downloadFile_headers event headers w r w' k :
  downloadFile event headers w = (Returned r, w') ->
  k <> "Content-Type" -> k <> "Content-Disposition" -> k <> "Content-Length" ->
  k <> "X-Document-Value-Code" -> k <> "X-Document-Value-Type-Code" ->
  res_headers r !! k = headers !! k.
Proof.
  intros Hdown H1 H2 H3 H4 H5.
  destruct (key_param_cases event) as [Hfalsy|(key & Hkey & Hne)].
  - rewrite (downloadFile_without_key _ headers w Hfalsy) in Hdown.
    by injection Hdown as <- _.
  - destruct (s3_fault (GetObjectCommand key)) as [error|] eqn:Hfault.
    + rewrite (downloadFile_fault _ headers w _ _ Hkey Hne Hfault) in Hdown.
      injection Hdown as <- _. by destruct (String.eqb _ _).
    + destruct (bucket w !! key) as [object|] eqn:Hobj.
      * rewrite (downloadFile_found _ headers w _ _ Hkey Hne Hfault Hobj) in Hdown.
        injection Hdown as <- _. cbn zeta. destruct (String.eqb _ "text/plain");
          cbn [res_headers envelope attachment]; by rewrite !lookup_insert_ne.
      * rewrite (downloadFile_missing _ headers w _ Hkey Hne Hfault Hobj) in Hdown.
        by injection Hdown as <- _.
Qed.

Lemma downloadFile_not_internal_error event headers w r w' msg :
  downloadFile event headers w = (Returned r, w') ->
  res_body r <> JSON_stringify (JObj
    [ ("error", JStr "Internal server error"); ("details", JStr msg) ]).
Proof.
  intros Hdown.
  destruct (key_param_cases event) as [Hfalsy|(key & Hkey & Hne)].
  - rewrite (downloadFile_without_key _ headers w Hfalsy) in Hdown.
    by injection Hdown as <- _.
  - destruct (s3_fault (GetObjectCommand key)) as [error|] eqn:Hfault.
    + rewrite (downloadFile_fault _ headers w _ _ Hkey Hne Hfault) in Hdown.
      injection Hdown as <- _. by destruct (String.eqb _ _).
    + destruct (bucket w !! key) as [object|] eqn:Hobj.
      * rewrite (downloadFile_found _ headers w _ _ Hkey Hne Hfault Hobj) in Hdown.
        injection Hdown as <- _. cbn zeta. by destruct (String.eqb _ "text/plain").
      * rewrite (downloadFile_missing _ headers w _ Hkey Hne Hfault Hobj) in Hdown.
        by injection Hdown as <- _.
Qed.

Lemma downloadFile_effect event headers w o w' :
  downloadFile event headers w = (o, w') ->
  (exists r, o = Returned r) /\
  bucket w' = bucket w /\ clock w' = clock w /\
  (sent w' = sent w \/ exists c, sent w' = sent w ++ [c]).
Proof.
  intros Hdown.
  destruct (key_param_cases event) as [Hfalsy|(key & Hkey & Hne)].
  - rewrite (downloadFile_without_key _ headers w Hfalsy) in Hdown.
    injection Hdown as <- <-. repeat split; eauto.
  - destruct (s3_fault (GetObjectCommand key)) as [error|] eqn:Hfault.
    + rewrite (downloadFile_fault _ headers w _ _ Hkey Hne Hfault) in Hdown.
      injection Hdown as <- <-. repeat split; cbn; eauto.
    + destruct (bucket w !! key) as [object|] eqn:Hobj.
      * rewrite (downloadFile_found _ headers w _ _ Hkey Hne Hfault Hobj) in Hdown.
        injection Hdown as <- <-. repeat split; cbn; eauto.
      * rewrite (downloadFile_missing _ headers w _ Hkey Hne Hfault Hobj) in Hdown.
        injection Hdown as <- <-. repeat split; cbn; eauto.
Qed.

(** The router, by invocation, method and action. *)
Lemma handler_without_headers missing method query text base64 w :
  handler (WithoutHeaders missing method query text base64) w =
  (Returned (internal_server_error (read_TypeError missing "content-type")), w).
Proof. reflexivity. Qed.

Lemma handler_no_event missing w :
  handler (NoEvent missing) w =
  (Returned (internal_server_error (read_TypeError missing "httpMethod")), w).
Proof. reflexivity. Qed.

Lemma handler_preflight event w :
  httpMethod event = "OPTIONS" ->
  handler (WithHeaders event) w =
  (Returned (preflight_response getCorsHeaders), w).
Proof.
  intros Hm. rewrite handler_WithHeaders. unfold try_catch. rewrite Hm.
  reflexivity.
Qed.

Lemma handler_upload event w :
  httpMethod event <> "OPTIONS" -> action_param event = Some "uploadFile" ->
  handler (WithHeaders event) w = uploadFile event getCorsHeaders w.
Proof.
  intros Hm%String.eqb_neq Ha. rewrite handler_WithHeaders.
  unfold try_catch. rewrite Hm.
  unfold action_param in Ha. rewrite Ha. cbn [String.eqb Ascii.eqb Bool.eqb].
  destruct (uploadFile event getCorsHeaders w) as [[r|error|] w'] eqn:Hup;
    [reflexivity| |reflexivity].
  destruct (uploadFile_no_throw _ _ _ _ _ Hup).
Qed.

Lemma handler_download event w :
  httpMethod event <> "OPTIONS" -> action_param event = Some "downloadFile" ->
  handler (WithHeaders event) w = downloadFile event getCorsHeaders w.
Proof.
  intros Hm%String.eqb_neq Ha. rewrite handler_WithHeaders.
  unfold try_catch. rewrite Hm.
  unfold action_param in Ha. rewrite Ha. cbn [String.eqb Ascii.eqb Bool.eqb].
  destruct (downloadFile event getCorsHeaders w) as [[r|error|] w'] eqn:Hdown;
    [reflexivity| |reflexivity].
  destruct (downloadFile_no_throw _ _ _ _ _ Hdown).
Qed.

Lemma handler_list event w :
  httpMethod event <> "OPTIONS" -> action_param event = Some "listDocuments" ->
  handler (WithHeaders event) w =
  match s3_fault (ListObjectsV2Command "documents/") with
  | Some error =>
      (Returned (internal_server_error error),
       log_sent (ListObjectsV2Command "documents/") w)
  | None => listDocuments getCorsHeaders w
  end.
Proof.
  intros Hm%String.eqb_neq Ha. rewrite handler_WithHeaders.
  unfold try_catch. rewrite Hm.
  unfold action_param in Ha. rewrite Ha. cbn [String.eqb Ascii.eqb Bool.eqb].
  destruct (s3_fault (ListObjectsV2Command "documents/")) as [error|] eqn:Hfault.
  - rewrite (listDocuments_fault _ _ _ Hfault). reflexivity.
  - rewrite (listDocuments_answer _ _ Hfault). reflexivity.
Qed.

Lemma handler_other event w :
  httpMethod event <> "OPTIONS" ->
  action_param event <> Some "uploadFile" ->
  action_param event <> Some "listDocuments" ->
  action_param event <> Some "downloadFile" ->
  handler (WithHeaders event) w =
  (Returned (invalid_action_response getCorsHeaders), w).
Proof.
  intros Hm%String.eqb_neq H1 H2 H3. rewrite handler_WithHeaders.
  unfold try_catch. rewrite Hm.
  unfold action_param in *.
  destruct (queryStringParameters event ≫= _) as [a|]; [|reflexivity].
  destruct (String.eqb_spec a "uploadFile") as [->|_]; [done|].
  destruct (String.eqb_spec a "listDocuments") as [->|_]; [done|].
  destruct (String.eqb_spec a "downloadFile") as [->|_]; [done|].
  reflexivity.
Qed.

(** The five ways a request with headers is routed. *)
Lemma handler_cases event :
  httpMethod event = "OPTIONS" \/
  httpMethod event <> "OPTIONS" /\
  (action_param event = Some "uploadFile" \/
   action_param event = Some "listDocuments" \/
   action_param event = Some "downloadFile" \/
   action_param event <> Some "uploadFile" /\
   action_param event <> Some "listDocuments" /\
   action_param event <> Some "downloadFile").
Proof.
  destruct (decide (httpMethod event = "OPTIONS")) as [?|Hm]; [by left|].
  right. split; [exact Hm|].
  destruct (decide (action_param event = Some "uploadFile")); [by left|].
  destruct (decide (action_param event = Some "listDocuments")); [by right; left|].
  destruct (decide (action_param event = Some "downloadFile"));
    [by right; right; left|].
  by right; right; right.
Qed.

(** X6: the router is a failure boundary: it never throws, whatever it is
    invoked with; and every invocation that is not routed to the upload flow
    (no headers or no event, a preflight, any action other than
    [uploadFile]) is answered. *)
Theorem handler_never_throws invocation w :
  (forall error w', handler invocation w <> (Thrown error, w')) /\
  ((forall event,
      invocation = WithHeaders event ->
      httpMethod event = "OPTIONS" \/ action_param event <> Some "uploadFile") ->
   exists r w', handler invocation w = (Returned r, w')).
Proof.
  split.
  - intros error w'. unfold handler, try_catch.
    match goal with
    | |- match ?m w with _ => _ end <> _ => destruct (m w) as [[r|e|] w'']
    end; discriminate.
  - intros Hroute. destruct invocation as [event|missing method query text base64|missing].
    + destruct (handler_cases event) as [Hm|(Hm & [Ha|[Ha|[Ha|(H1 & H2 & H3)]]])].
      * rewrite (handler_preflight _ _ Hm). eauto.
      * destruct (Hroute event eq_refl); done.
      * rewrite (handler_list _ _ Hm Ha).
        destruct (s3_fault (ListObjectsV2Command "documents/")) eqn:Hfault;
          [eauto|].
        rewrite (listDocuments_answer _ _ Hfault). eauto.
      * rewrite (handler_download _ _ Hm Ha).
        destruct (downloadFile event getCorsHeaders w) as [o w'] eqn:Hdown.
        destruct (downloadFile_effect _ _ _ _ _ Hdown) as ((r & ->) & _). eauto.
      * rewrite (handler_other _ _ Hm H1 H2 H3). eauto.
    + rewrite handler_without_headers. eauto.
    + rewrite handler_no_event. eauto.
Qed.

Lemma cors_not_download_header k v :
  getCorsHeaders !! k = Some v ->
  k <> "Content-Type" /\ k <> "Content-Disposition" /\ k <> "Content-Length" /\
  k <> "X-Document-Value-Code" /\ k <> "X-Document-Value-Type-Code".
Proof. intros Hk. repeat split; intros ->; vm_compute in Hk; discriminate. Qed.

(** X7: every response of the router, success or failure and whatever it
    is invoked with, carries the five CORS headers with their fixed
    values. *)
Theorem handler_responses_carry_cors invocation w r w' :
  handler invocation w = (Returned r, w') ->
  getCorsHeaders ⊆ res_headers r.
Proof.
  intros Hh. destruct invocation as [event|missing method query text base64|missing].
  - destruct (handler_cases event) as [Hm|(Hm & [Ha|[Ha|[Ha|(H1 & H2 & H3)]]])].
    + rewrite (handler_preflight _ _ Hm) in Hh. by injection Hh as <- _.
    + rewrite (handler_upload _ _ Hm Ha) in Hh.
      by rewrite (uploadFile_headers _ _ _ _ _ Hh).
    + rewrite (handler_list _ _ Hm Ha) in Hh.
      destruct (s3_fault (ListObjectsV2Command "documents/")) eqn:Hfault.
      * by injection Hh as <- _.
      * rewrite (listDocuments_answer _ _ Hfault) in Hh. by injection Hh as <- _.
    + rewrite (handler_download _ _ Hm Ha) in Hh.
      apply map_subseteq_spec. intros k v Hk.
      destruct (cors_not_download_header _ _ Hk) as (? & ? & ? & ? & ?).
      by rewrite (downloadFile_headers _ _ _ _ _ k Hh).
    + rewrite (handler_other _ _ Hm H1 H2 H3) in Hh. by injection Hh as <- _.
  - rewrite handler_without_headers in Hh. by injection Hh as <- _.
  - rewrite handler_no_event in Hh. by injection Hh as <- _.
Qed.

(** X8: the router's own 500 "Internal server error" answers exactly three
    failures, with the failure's message as details: an envelope without
    headers object, an invocation without event, and a failure of the store
    in the list flow; the upload and download flows report their failures
    themselves. *)
Theorem handler_internal_error_causes invocation w r w' msg :
  handler invocation w = (Returned r, w') ->
  (res_body r = JSON_stringify (JObj
     [ ("error", JStr "Internal server error"); ("details", JStr msg) ]) <->
   (exists missing method query text base64,
      invocation = WithoutHeaders missing method query text base64 /\
      err_message (read_TypeError missing "content-type") = msg) \/
   (exists missing,
      invocation = NoEvent missing /\
      err_message (read_TypeError missing "httpMethod") = msg) \/
   (exists event error,
      invocation = WithHeaders event /\
      httpMethod event <> "OPTIONS" /\
      action_param event = Some "listDocuments" /\
      s3_fault (ListObjectsV2Command "documents/") = Some error /\
      err_message error = msg)).
Proof.
  intros Hh. destruct invocation as [event|missing method query text base64|missing].
  - assert (Hiff :
      (exists missing method query text base64,
         WithHeaders event = WithoutHeaders missing method query text base64 /\
         err_message (read_TypeError missing "content-type") = msg) \/
      (exists missing,
         WithHeaders event = NoEvent missing /\
         err_message (read_TypeError missing "httpMethod") = msg) \/
      (exists event' error,
         WithHeaders event = WithHeaders event' /\
         httpMethod event' <> "OPTIONS" /\
         action_param event' = Some "listDocuments" /\
         s3_fault (ListObjectsV2Command "documents/") = Some error /\
         err_message error = msg) <->
      httpMethod event <> "OPTIONS" /\
      action_param event = Some "listDocuments" /\
      exists error,
        s3_fault (ListObjectsV2Command "documents/") = Some error /\
        err_message error = msg).
    { split.
      - intros [(? & ? & ? & ? & ? & ? & _)|[(? & ? & _)
               |(event' & error & [= <-] & ? & ? & ? & ?)]];
          [discriminate|discriminate|eauto].
      - intros (? & ? & error & ? & ?). right. right. exists event, error. auto. }
    rewrite Hiff. clear Hiff.
    destruct (handler_cases event) as [Hm|(Hm & [Ha|[Ha|[Ha|(H1 & H2 & H3)]]])].
    + rewrite (handler_preflight _ _ Hm) in Hh. injection Hh as <- _.
      split; [discriminate|]. by intros [? _].
    + rewrite (handler_upload _ _ Hm Ha) in Hh. split.
      * intros Hbody.
        destruct (uploadFile_not_internal_error _ _ _ _ _ msg Hh Hbody).
      * intros (_ & Ha' & _). congruence.
    + rewrite (handler_list _ _ Hm Ha) in Hh.
      destruct (s3_fault (ListObjectsV2Command "documents/")) as [error|] eqn:Hfault.
      * injection Hh as <- _. split.
        -- intros [= <-]. eauto.
        -- intros (_ & _ & error' & [= <-] & <-). reflexivity.
      * rewrite (listDocuments_answer _ _ Hfault) in Hh. injection Hh as <- _.
        split; [discriminate|]. intros (_ & _ & error & ? & _). discriminate.
    + rewrite (handler_download _ _ Hm Ha) in Hh. split.
      * intros Hbody.
        destruct (downloadFile_not_internal_error _ _ _ _ _ msg Hh Hbody).
      * intros (_ & Ha' & _). congruence.
    + rewrite (handler_other _ _ Hm H1 H2 H3) in Hh. injection Hh as <- _.
      split; [discriminate|]. intros (_ & Ha' & _). done.
  - rewrite handler_without_headers in Hh. injection Hh as <- _. split.
    + intros [= <-]. left. eauto 10.
    + intros [(? & ? & ? & ? & ? & [= <- _ _ _ _] & <-)
             |[(? & ? & _)|(? & ? & ? & _)]]; [reflexivity|discriminate..].
  - rewrite handler_no_event in Hh. injection Hh as <- _. split.
    + intros [= <-]. right. left. eauto.
    + intros [(? & ? & ? & ? & ? & ? & _)
             |[(? & [= <-] & <-)|(? & ? & ? & _)]]; [discriminate|reflexivity|discriminate].
Qed.

(** X9: one request sends at most one command to the store and leaves the
    clock alone; and the bucket changes only for an action [uploadFile]
    that is answered 200. *)
Theorem handler_sends_at_most_one_command invocation w o w' :
  handler invocation w = (o, w') ->
  clock w' = clock w /\
  (sent w' = sent w \/ exists c, sent w' = sent w ++ [c]) /\
  (bucket w' <> bucket w ->
   exists event,
     invocation = WithHeaders event /\
     action_param event = Some "uploadFile" /\
     exists r, o = Returned r /\ statusCode r = 200%Z).
Proof.
  intros Hh. destruct invocation as [event|missing method query text base64|missing].
  - destruct (handler_cases event) as [Hm|(Hm & [Ha|[Ha|[Ha|(H1 & H2 & H3)]]])].
    + rewrite (handler_preflight _ _ Hm) in Hh. injection Hh as _ <-.
      split; [done|]. split; [by left|done].
    + rewrite (handler_upload _ _ Hm Ha) in Hh.
      destruct (uploadFile_effect _ _ _ _ _ Hh)
        as (Hclock & [(-> & _)|(Hsent & [Hb|Hok])]).
      * split; [done|]. split; [by left|done].
      * split; [done|]. split; [by right|done].
      * split; [done|]. split; [by right|]. intros _. eauto.
    + rewrite (handler_list _ _ Hm Ha) in Hh.
      destruct (s3_fault (ListObjectsV2Command "documents/")) eqn:Hfault.
      * injection Hh as _ <-. split; [done|]. split; [right; eauto|done].
      * rewrite (listDocuments_answer _ _ Hfault) in Hh. injection Hh as _ <-.
        split; [done|]. split; [right; eauto|done].
    + rewrite (handler_download _ _ Hm Ha) in Hh.
      destruct (downloadFile_effect _ _ _ _ _ Hh) as (_ & Hb & Hc & Hs).
      split; [done|]. split; [exact Hs|done].
    + rewrite (handler_other _ _ Hm H1 H2 H3) in Hh. injection Hh as _ <-.
      split; [done|]. split; [by left|done].
  - rewrite handler_without_headers in Hh. injection Hh as _ <-.
    split; [done|]. split; [by left|done].
  - rewrite handler_no_event in Hh. injection Hh as _ <-.
    split; [done|]. split; [by left|done].
Qed.

End Router.

(** ** The decoder: settling, fields and transport *)

Lemma settle_not_pending o d :
  o <> Pending -> d_promise (settle o d) <> Pending.
Proof.
  intros Ho. unfold settle. destruct (d_promise d) eqn:Hd; cbn; congruence.
Qed.

Lemma on_event_settled d ev :
  d_promise d <> Pending -> d_promise (on_event d ev) = d_promise d.
Proof.
  intros Hd. destruct ev; cbn; unfold settle; repeat case_match; cbn; congruence.
Qed.

Lemma run_settled trace : forall d,
  d_promise d <> Pending -> d_promise (fold_left on_event trace d) = d_promise d.
Proof.
  induction trace as [|ev trace IH]; intros d Hd; [reflexivity|].
  cbn [fold_left]. rewrite IH; rewrite on_event_settled; done.
Qed.

Lemma on_event_not_settling d ev :
  is_settling_event ev = false -> d_promise (on_event d ev) = d_promise d.
Proof. destruct ev; cbn; try discriminate; intros _; repeat case_match; done. Qed.

Lemma on_event_settling d ev :
  is_settling_event ev = true -> d_promise (on_event d ev) <> Pending.
Proof.
  destruct ev; cbn; try discriminate; intros _.
  - destruct (d_fileData d); by apply settle_not_pending.
  - by apply settle_not_pending.
Qed.

Lemma run_not_settling trace : forall d,
  Forall (fun ev => is_settling_event ev = false) trace ->
  d_promise (fold_left on_event trace d) = d_promise d.
Proof.
  induction trace as [|ev trace IH]; intros d Htrace; [reflexivity|].
  apply Forall_cons in Htrace as [Hev Htrace]. cbn [fold_left].
  rewrite IH by done. by apply on_event_not_settling.
Qed.

(** X10: the promise of the decoder settles once, at the first ['finish']
    or ['error'] event: what the parser emits after it changes nothing, and
    a first ['error'] rejects with the parser's error. *)
Theorem decoder_first_settlement_wins pre ev rest :
  Forall (fun ev => is_settling_event ev = false) pre ->
  is_settling_event ev = true ->
  d_promise (run_handlers (pre ++ ev :: rest)) = d_promise (run_handlers (pre ++ [ev])) /\
  d_promise (run_handlers (pre ++ [ev])) <> Pending /\
  (forall error, ev = EvError error ->
     d_promise (run_handlers (pre ++ ev :: rest)) = Thrown error).
Proof.
  intros Hpre Hev. unfold run_handlers. rewrite !fold_left_app. cbn [fold_left].
  set (d := fold_left on_event pre decoder_init).
  assert (Hd : d_promise d = Pending) by (subst d; by rewrite run_not_settling).
  pose proof (on_event_settling d ev Hev) as Hsettled.
  rewrite run_settled by done. split; [reflexivity|]. split; [done|].
  intros error ->. cbn. unfold settle. rewrite Hd. reflexivity.
Qed.

Lemma run_pending_iff trace : forall d,
  d_promise d = Pending ->
  d_promise (fold_left on_event trace d) = Pending <->
  Forall (fun ev => is_settling_event ev = false) trace.
Proof.
  induction trace as [|ev trace IH]; intros d Hd; [by split|].
  cbn [fold_left]. rewrite Forall_cons.
  destruct (is_settling_event ev) eqn:Hev.
  - rewrite run_settled by by apply on_event_settling. split.
    + intros Hp. by destruct (on_event_settling d ev Hev).
    + by intros [? _].
  - rewrite IH by by rewrite on_event_not_settling. tauto.
Qed.

(** A ['field'] event of another name than the two known ones changes
    nothing. *)
Lemma on_event_irrelevant d ev : relevant_event ev = false -> on_event d ev = d.
Proof.
  destruct ev; try discriminate. cbn.
  intros [-> ->]%orb_false_iff. reflexivity.
Qed.

Lemma run_relevant trace : forall d,
  fold_left on_event trace d =
  fold_left on_event (filter (fun ev => relevant_event ev = true) trace) d.
Proof.
  induction trace as [|ev trace IH]; intros d; [reflexivity|].
  destruct (relevant_event ev) eqn:Hev.
  - rewrite filter_cons_True by done. cbn [fold_left]. apply IH.
  - rewrite filter_cons_False by congruence. cbn [fold_left].
    rewrite on_event_irrelevant by done. apply IH.
Qed.

(** X11: form fields with other names than [documentValueCode] and
    [documentValueTypeCode] do not reach the decoder's state, wherever their
    ['field'] events come in the trace the parser emits: the handlers leave
    the same state, and so the same promise, with and without them. *)
Theorem decoder_drops_unknown_fields trace :
  run_handlers trace =
  run_handlers (filter (fun ev => relevant_event ev = true) trace).
Proof. unfold run_handlers. apply run_relevant. Qed.

(** The two known fields hold the value of their last ['field'] event. *)
Lemma run_documentValueCode trace : forall d,
  d_documentValueCode (fold_left on_event trace d) =
  default (d_documentValueCode d) (last (field_values "documentValueCode" trace)).
Proof.
  induction trace as [|ev trace IH]; intros d; [reflexivity|].
  cbn [fold_left]. rewrite IH. unfold field_values. cbn [omap list_omap].
  fold (field_values "documentValueCode" trace).
  destruct ev as [| | |fieldname val| |]; cbn [on_event];
    try (unfold settle; repeat case_match; reflexivity).
  destruct (String.eqb_spec fieldname "documentValueCode") as [->|Hc].
  - rewrite last_cons. by destruct (last (field_values _ trace)).
  - by destruct (String.eqb fieldname "documentValueTypeCode").
Qed.

Lemma run_documentValueTypeCode trace : forall d,
  d_documentValueTypeCode (fold_left on_event trace d) =
  default (d_documentValueTypeCode d)
    (last (field_values "documentValueTypeCode" trace)).
Proof.
  induction trace as [|ev trace IH]; intros d; [reflexivity|].
  cbn [fold_left]. rewrite IH. unfold field_values. cbn [omap list_omap].
  fold (field_values "documentValueTypeCode" trace).
  destruct ev as [| | |fieldname val| |]; cbn [on_event];
    try (unfold settle; repeat case_match; reflexivity).
  destruct (String.eqb_spec fieldname "documentValueTypeCode") as [->|Ht].
  - rewrite last_cons. cbn. by destruct (last (field_values _ trace)).
  - by destruct (String.eqb fieldname "documentValueCode").
Qed.

(** The filename and the declared type are those of the last ['file']
    event. *)
Lemma run_names trace : forall d,
  (d_fileName (fold_left on_event trace d),
   d_fileType (fold_left on_event trace d)) =
  default (d_fileName d, d_fileType d) (last (file_events trace)).
Proof.
  induction trace as [|ev trace IH]; intros d; [reflexivity|].
  cbn [fold_left]. rewrite IH. unfold file_events. cbn [omap list_omap].
  fold (file_events trace).
  destruct (is_file_event ev) eqn:Hev.
  - destruct ev; try discriminate. rewrite last_cons. cbn.
    by destruct (last (file_events trace)).
  - destruct (on_event_keeps_names d ev Hev) as [-> ->].
    by destruct ev.
Qed.

(** Between its ['file'] event and the next one for the same stream, the
    [chunks] array of a file stream grows by the chunks the stream
    delivers. *)
Lemma run_delivered stream trace : forall d acc,
  d_chunks d !! stream = Some acc ->
  Forall (fun ev => opens stream ev = false) trace ->
  d_chunks (fold_left on_event trace d) !! stream =
  Some (acc ++ delivered stream trace).
Proof.
  induction trace as [|ev trace IH]; intros d acc Hacc Htrace.
  - cbn. by rewrite app_nil_r.
  - apply Forall_cons in Htrace as [Hev Htrace]. cbn [fold_left].
    unfold delivered. cbn [omap list_omap]. fold (delivered stream trace).
    destruct ev as [stream' ? ? ? ?|stream' data|stream'|? ?| |error].
    + cbn in Hev. apply Nat.eqb_neq in Hev.
      apply IH; [|done]. cbn. by rewrite lookup_insert_ne.
    + destruct (Nat.eqb_spec stream' stream) as [->|Hne].
      * cbn [on_event]. rewrite Hacc.
        rewrite (IH _ (acc ++ [data])); [|cbn; apply lookup_insert_eq|done].
        by rewrite <- app_assoc.
      * apply IH; [|done]. cbn [on_event].
        destruct (d_chunks d !! stream'); [|done].
        cbn. by rewrite lookup_insert_ne.
    + apply IH; [|done]. cbn [on_event].
      by destruct (d_chunks d !! stream').
    + apply IH; [|done]. cbn [on_event]. by repeat case_match.
    + apply IH; [|done]. cbn [on_event]. unfold settle. by repeat case_match.
    + apply IH; [|done]. cbn [on_event]. unfold settle. by repeat case_match.
Qed.

(** The first ['finish'] event settles the promise from what the handlers
    have gathered until then. *)
Lemma run_finish pre rest :
  Forall (fun ev => is_settling_event ev = false) pre ->
  d_promise (run_handlers (pre ++ EvFinish :: rest)) =
  match d_fileData (run_handlers pre) with
  | None => Thrown (new_Error "No file found in form data")
  | Some data =>
      Returned
        {| fileData := data; fileName := d_fileName (run_handlers pre);
           fileType := d_fileType (run_handlers pre);
           documentValueCode := d_documentValueCode (run_handlers pre);
           documentValueTypeCode := d_documentValueTypeCode (run_handlers pre) |}
  end.
Proof.
  intros Hpre. unfold run_handlers. rewrite fold_left_app. cbn [fold_left].
  rewrite run_settled by by apply on_event_settling.
  cbn [on_event]. pose proof (run_not_settling pre decoder_init Hpre) as Hp.
  destruct (d_fileData _); unfold settle; rewrite Hp; reflexivity.
Qed.

Section Decoder.
Context `{!Runtime}.

(** X12: when the parser reports an error before it finishes, and before
    any file stream is opened, the decode is rejected with that error and
    the upload is answered 500 with the parser's message as details; nothing
    is sent to the store. *)
Theorem parse_error_is_500 event headers w pre error rest :
  emits event (pre ++ EvError error :: rest) ->
  Forall (fun ev => is_settling_event ev = false) pre ->
  Forall (fun ev => is_file_event ev = false) (pre ++ rest) ->
  extractFileFromForm event = Thrown error /\
  exists r,
    uploadFile event headers w = (Returned r, w) /\
    statusCode r = 500%Z /\
    res_body r = JSON_stringify (JObj
      [ ("error", JStr "Failed to upload file");
        ("details", JStr (err_message error)) ]).
Proof.
  intros Hemit Hpre _.
  assert (Hex : extractFileFromForm event = Thrown error).
  { rewrite (extract_emits _ _ Hemit). unfold run_handlers.
    rewrite fold_left_app. cbn [fold_left].
    rewrite run_settled by by apply on_event_settling.
    cbn. unfold settle. by rewrite run_not_settling. }
  split; [exact Hex|]. eexists.
  split; [exact (uploadFile_thrown _ headers w _ Hex)|]. split; reflexivity.
Qed.

(** X13: the decode settles only through a ['finish'] or an ['error']
    event: for a multipart request it stays pending exactly when the parser
    emits neither, and then the upload flow never returns and sends nothing
    to the store. *)
Theorem decode_pending_without_finish event headers w trace :
  emits event trace ->
  (extractFileFromForm event = Pending <->
   Forall (fun ev => is_settling_event ev = false) trace) /\
  (Forall (fun ev => is_settling_event ev = false) trace ->
   uploadFile event headers w = (Pending, w)).
Proof.
  intros Hemit. rewrite (extract_emits _ _ Hemit). unfold run_handlers.
  split; [by apply run_pending_iff|].
  intros Htrace. apply uploadFile_pending.
  rewrite (extract_emits _ _ Hemit). unfold run_handlers.
  by apply run_pending_iff.
Qed.

(** X14: in the result of a decode, a known field has the value of its
    last ['field'] event before the first ['finish'], wherever the parser
    emits these events among those of the file streams, and the empty string
    when there is none. *)
Theorem decoder_last_field_value_wins event pre rest f :
  emits event (pre ++ EvFinish :: rest) ->
  Forall (fun ev => is_settling_event ev = false) pre ->
  extractFileFromForm event = Returned f ->
  documentValueCode f =
    default "" (last (field_values "documentValueCode" pre)) /\
  documentValueTypeCode f =
    default "" (last (field_values "documentValueTypeCode" pre)).
Proof.
  intros Hemit Hpre. rewrite (extract_emits _ _ Hemit), (run_finish _ _ Hpre).
  destruct (d_fileData (run_handlers pre)); [|discriminate].
  intros [= <-]. cbn [documentValueCode documentValueTypeCode].
  unfold run_handlers.
  rewrite run_documentValueCode, run_documentValueTypeCode. split; reflexivity.
Qed.

(** C3 (as the code has it): the decoder keeps the last file, not the
    first. Whatever the order in which the parser emits the events of the
    file parts, the decode resolves with the bytes of the file stream that
    ended last before ['finish'], all its chunks in order, and with the
    filename and the declared type of the last ['file'] event; these are
    the filename and type of that same stream when no ['file'] event comes
    after its own. *)
Theorem decoder_keeps_last_file
    event a stream fieldname filename encoding mimetype b c rest :
  emits event
    ((a ++ EvFile stream fieldname filename encoding mimetype ::
        b ++ EvEnd stream :: c) ++ EvFinish :: rest) ->
  Forall (fun ev => is_settling_event ev = false)
    (a ++ EvFile stream fieldname filename encoding mimetype ::
       b ++ EvEnd stream :: c) ->
  Forall (fun ev => opens stream ev = false) b ->
  Forall (fun ev => is_end_event ev = false) c ->
  exists f,
    extractFileFromForm event = Returned f /\
    fileData f = concat (delivered stream b) /\
    last (file_events
      (a ++ EvFile stream fieldname filename encoding mimetype ::
         b ++ EvEnd stream :: c)) = Some (fileName f, fileType f) /\
    (Forall (fun ev => is_file_event ev = false) (b ++ c) ->
     fileName f = filename /\ fileType f = mimetype).
Proof.
  intros Hemit Hpre Hb Hc.
  rewrite (extract_emits _ _ Hemit), (run_finish _ _ Hpre).
  set (pre := a ++ EvFile stream fieldname filename encoding mimetype ::
                b ++ EvEnd stream :: c).
  assert (Hdata : d_fileData (run_handlers pre) =
                  Some (concat (delivered stream b))).
  { subst pre.
    change (a ++ EvFile stream fieldname filename encoding mimetype ::
              b ++ EvEnd stream :: c)
      with (a ++ [EvFile stream fieldname filename encoding mimetype] ++
              b ++ EvEnd stream :: c).
    rewrite !app_assoc.
    apply data_of_last_end_event; [|exact Hc].
    unfold run_handlers. rewrite !fold_left_app.
    rewrite (run_delivered stream b _ []); [reflexivity| |exact Hb].
    cbn. apply lookup_insert_eq. }
  rewrite Hdata. eexists. split; [reflexivity|].
  cbn [fileData fileName fileType]. split; [reflexivity|].
  pose proof (run_names pre decoder_init) as Hnames. fold (run_handlers pre) in Hnames.
  assert (Hsome : is_Some (last (file_events pre))).
  { subst pre. unfold file_events. rewrite omap_app. cbn [omap list_omap].
    rewrite last_app, last_cons. destruct (last (omap _ _)); eauto. }
  destruct Hsome as [x Hx]. rewrite Hx in Hnames. cbn in Hnames.
  split; [congruence|].
  intros Hbc.
  assert (Hrest : Forall (fun ev => is_file_event ev = false) (b ++ EvEnd stream :: c)).
  { apply Forall_app in Hbc as [? ?]. apply Forall_app. split; [done|].
    by apply Forall_cons. }
  exact (names_of_last_file_event a stream fieldname filename encoding mimetype
           _ Hrest).
Qed.

(** X15: with a multipart content type, a parser whose construction throws
    and a request without body are both answered 500 by the upload flow,
    with the thrown error's message as details, and nothing is sent to the
    store. *)
Theorem decode_setup_failure_is_500 event headers w contentType :
  contentType_header event = Some contentType ->
  Js.includes "multipart/form-data" contentType = true ->
  (forall error,
     Busboy contentType = inl error ->
     uploadFile event headers w = (Returned (upload_failed headers error), w)) /\
  (forall bb,
     Busboy contentType = inr bb -> body event = None ->
     uploadFile event headers w =
     (Returned (upload_failed headers Buffer_from_TypeError), w)) /\
  (forall error, statusCode (upload_failed headers error) = 500%Z).
Proof.
  intros Hct Hinc.
  assert (Hex : forall o,
    match Busboy contentType with
    | inl error => Thrown error
    | inr bb =>
        match body event with
        | None => Thrown Buffer_from_TypeError
        | Some text =>
            d_promise (run_handlers (bb
              (if isBase64Encoded event then Base64.decode text
               else String.list_byte_of_string text)))
        end
    end = o -> extractFileFromForm event = o).
  { intros o <-. unfold extractFileFromForm. fold (contentType_header event).
    rewrite Hct. destruct contentType as [|c ct]; [discriminate Hinc|].
    rewrite Hinc. reflexivity. }
  split; [|split; [|reflexivity]].
  - intros error Hbb. apply uploadFile_thrown, Hex. by rewrite Hbb.
  - intros bb Hbb Hbody. apply uploadFile_thrown, Hex. by rewrite Hbb, Hbody.
Qed.

(** X16: for the parts of a multipart body handled in order, the decode
    succeeds exactly when there is a file part, whatever its size: the
    result is then the last file part, also when that file is empty. *)
Theorem decode_succeeds_iff_file_part event parts :
  emits event (events_of_parts 0 parts) ->
  ((exists f, extractFileFromForm event = Returned f) <-> files_of parts <> []) /\
  (forall f, extractFileFromForm event = Returned f ->
     last (files_of parts) = Some (file_of_form f)) /\
  (forall filename mimetype,
     last (files_of parts) = Some (filename, mimetype, []) ->
     exists f, extractFileFromForm event = Returned f /\ fileData f = []).
Proof.
  intros Hemit. rewrite (extract_emits _ _ Hemit). unfold run_handlers.
  rewrite run_events_of_parts by reflexivity. cbn zeta.
  cbn [decoder_init d_fileData].
  destruct (last (files_of parts)) as [[[filename mimetype] data]|] eqn:Hlast.
  - split; [|split].
    + split; [|eauto]. intros _ Hnil. by rewrite Hnil in Hlast.
    + by intros f [= <-].
    + intros ? ? [= <- <- <-]. eauto.
  - apply last_None in Hlast. split; [|split].
    + split; [by intros [f ?]|done].
    + discriminate.
    + discriminate.
Qed.

(** X17: the decode depends on the body only through the bytes written to
    the parser: a body sent base64-encoded and the same bytes sent as plain
    text are decoded alike. *)
Theorem base64_transport_is_transparent event event' buffer :
  headers event = headers event' ->
  isBase64Encoded event = true ->
  body event = Some (Base64.encode buffer) ->
  isBase64Encoded event' = false ->
  body event' = Some (String.string_of_list_byte buffer) ->
  extractFileFromForm event = extractFileFromForm event'.
Proof.
  intros Hh Hb64 Hbody Hplain Hbody'. unfold extractFileFromForm.
  rewrite Hh, Hb64, Hbody, Hplain, Hbody', base64_decode_encode,
    String.list_byte_of_string_of_list_byte.
  reflexivity.
Qed.

End Decoder.

(** ** Keys and listings *)

Lemma is_digit_pretty_N_char x : is_digit (pretty_N_char x) = true.
Proof. unfold pretty_N_char. repeat case_match; reflexivity. Qed.

Lemma digits_pretty_N_go x : forall s,
  digits s = true -> digits (pretty_N_go x s) = true.
Proof.
  induction (N.lt_wf_0 x) as [x _ IH]; intros s Hs.
  assert (x = 0 \/ 0 < x)%N as [->|Hx] by lia.
  - by rewrite pretty_N_go_0.
  - rewrite pretty_N_go_step by done. apply IH; [by apply N.div_lt|].
    cbn. by rewrite is_digit_pretty_N_char.
Qed.

(** [Date.now()] is printed in decimal digits. *)
Lemma digits_pretty (now : N) : digits (pretty now) = true.
Proof.
  unfold pretty, pretty_N. case_decide; [reflexivity|].
  by apply digits_pretty_N_go.
Qed.

Lemma digits_occurs c s :
  is_digit c = false -> digits s = true -> occurs c s = false.
Proof.
  intros Hc. induction s as [|a s IH]; [reflexivity|].
  cbn. intros [Ha Hs]%andb_true_iff. rewrite (IH Hs), orb_false_r.
  destruct (Ascii.eqb_spec a c) as [->|]; [congruence|reflexivity].
Qed.

Lemma occurs_app c s t : occurs c (s +:+ t) = occurs c s || occurs c t.
Proof.
  induction s as [|a s IH]; [reflexivity|].
  change (String a s +:+ t) with (String a (s +:+ t)). cbn.
  by rewrite IH, orb_assoc.
Qed.

Lemma after_last_app c s t :
  occurs c t = false -> after_last c (s +:+ String c t) = t.
Proof.
  intros Ht. induction s as [|a s IH].
  - change (after_last c ("" +:+ String c t)) with
      (if occurs c (String c t) then after_last c t else String c t).
    cbn [occurs]. rewrite Ascii.eqb_refl. cbn. by apply after_last_no_sep.
  - change (String a s +:+ String c t) with (String a (s +:+ String c t)).
    cbn [after_last]. cbn [occurs]. rewrite occurs_app. cbn [occurs].
    rewrite Ascii.eqb_refl, !orb_true_r. exact IH.
Qed.

Lemma digits_dash_split s : forall s' t t',
  digits s = true -> digits s' = true ->
  s +:+ String "-" t = s' +:+ String "-" t' -> s = s' /\ t = t'.
Proof.
  induction s as [|a s IH]; intros [|a' s'] t t' Hs Hs' Heq.
  - by injection Heq as ->.
  - injection Heq as <- _. cbn in Hs'. discriminate.
  - injection Heq as -> _. cbn in Hs. discriminate.
  - change (String a (s +:+ String "-" t) = String a' (s' +:+ String "-" t')) in Heq.
    injection Heq as -> Heq.
    cbn in Hs, Hs'. apply andb_true_iff in Hs as [_ Hs].
    apply andb_true_iff in Hs' as [_ Hs'].
    destruct (IH _ _ _ Hs Hs' Heq) as [-> ->]. done.
Qed.

Lemma key_of_inj now fileName now' fileName' :
  key_of now fileName = key_of now' fileName' ->
  now = now' /\ fileName = fileName'.
Proof.
  unfold key_of. intros Heq.
  change ("documents/" +:+ ?x) with
    (String "d" (String "o" (String "c" (String "u" (String "m" (String "e"
      (String "n" (String "t" (String "s" (String "/" x)))))))))) in Heq.
  injection Heq as Heq.
  change ("-" +:+ ?x) with (String "-" x) in Heq.
  apply digits_dash_split in Heq as [Hnow ->]; [|apply digits_pretty..].
  split; [|reflexivity]. by apply (inj pretty).
Qed.

(** X18: the key of an upload determines its timestamp and its filename:
    two uploads get the same key only when they have the same [Date.now()]
    and the same filename. *)
Theorem key_of_injective now fileName now' fileName' :
  key_of now fileName = key_of now' fileName' ->
  now = now' /\ fileName = fileName'.
Proof. apply key_of_inj. Qed.

(** X19: the name under which an uploaded document is shown, in the listing
    and as the download's filename, is the last segment of its key: the
    timestamp, a dash and the filename, when the filename has no slash. *)
Theorem uploaded_display_name now fileName :
  occurs "/" fileName = false ->
  Js.pop (Js.split "/" (key_of now fileName)) = pretty now +:+ "-" +:+ fileName.
Proof.
  intros Hslash. rewrite pop_split_after_last. unfold key_of.
  change ("documents/" +:+ ?x) with ("documents" +:+ String "/" x).
  apply after_last_app. rewrite occurs_app.
  rewrite (digits_occurs "/" _ eq_refl (digits_pretty now)).
  change ("-" +:+ fileName) with (String "-" fileName). cbn [occurs orb].
  exact Hslash.
Qed.

Section Listing.
Context `{!Runtime}.

Lemma length_entries_under Prefix (b : gmap string s3_object) :
  length (entries_under Prefix b) <= size b.
Proof.
  unfold entries_under. rewrite <- length_map_to_list. apply length_filter.
Qed.

(** X20: when the store answers, the list flow returns 200 with at most
    1000 entries, none when no key is under [documents/]; it sends the one
    [ListObjectsV2] command for the prefix [documents/] and changes nothing
    in the bucket; and when the bucket has at most 1000 objects, every
    object under the prefix is listed with its key and its size in bytes. *)
Theorem list_answer headers w :
  s3_fault (ListObjectsV2Command "documents/") = None ->
  exists r w',
    listDocuments headers w = (Returned r, w') /\
    statusCode r = 200%Z /\ res_headers r = headers /\
    bucket w' = bucket w /\
    sent w' = sent w ++ [ListObjectsV2Command "documents/"] /\
    length (listed r) <= 1000 /\
    ((forall key, is_Some (bucket w !! key) ->
        String.prefix "documents/" key = false) ->
     res_body r = JSON_stringify (JObj [ ("documents", JArr []) ])) /\
    (size (bucket w) <= 1000 ->
     forall key object,
       bucket w !! key = Some object ->
       String.prefix "documents/" key = true ->
       JObj [ ("key", JStr key);
              ("fileName", JStr (after_last "/" key));
              ("size", JNum (N.of_nat (length (obj_Body object))));
              ("lastModified", JDate (obj_LastModified object)) ] ∈ listed r).
Proof.
  intros Hfault. eexists _, _. split; [exact (listDocuments_answer headers w Hfault)|].
  split; [reflexivity|]. split; [reflexivity|]. split; [reflexivity|].
  split; [reflexivity|]. cbn [listed res_body listing].
  split; [|split].
  - rewrite length_map, length_take. lia.
  - intros Hnone.
    assert (Hnil : entries_under "documents/" (bucket w) = []).
    { apply elem_of_nil_inv. intros [key object] Hin.
      apply list_elem_of_filter in Hin as [Hprefix Hin].
      apply elem_of_map_to_list in Hin. cbn in Hprefix.
      rewrite Hnone in Hprefix by eauto. discriminate. }
    rewrite Hnil. reflexivity.
  - intros Hsize key object Hobj Hprefix.
    rewrite take_ge.
    2:{ rewrite length_map. pose proof (length_entries_under "documents/" (bucket w)). lia. }
    apply list_elem_of_fmap. exists (item_of (key, object)). split.
    + unfold document_of. rewrite pop_split_after_last. reflexivity.
    + apply list_elem_of_fmap. exists (key, object). split; [reflexivity|].
      apply list_elem_of_filter. split; [exact Hprefix|].
      by apply elem_of_map_to_list.
Qed.

(** X21: after an upload answered 200, a listing the store answers (on a
    bucket of at most 1000 objects) has an entry for the returned key, with
    the length of the uploaded file as size and the time of the upload as
    last modification. *)
Theorem uploaded_document_is_listed event headers w r w1 headers' :
  uploadFile event headers w = (Returned r, w1) ->
  statusCode r = 200%Z ->
  s3_fault (ListObjectsV2Command "documents/") = None ->
  size (bucket w1) <= 1000 ->
  exists f key r' w2,
    extractFileFromForm event = Returned f /\
    returned_key r = Some key /\
    listDocuments headers' w1 = (Returned r', w2) /\
    JObj [ ("key", JStr key);
           ("fileName", JStr (after_last "/" key));
           ("size", JNum (N.of_nat (length (fileData f))));
           ("lastModified", JDate (clock w)) ] ∈ listed r'.
Proof.
  intros Hup Hstatus Hfault Hsize.
  destruct (uploadFile_returned _ _ _ _ _ Hup)
    as [(error & _ & -> & _)
       |(f & Hex & [(_ & -> & _)
                   |(_ & [(error & _ & -> & _)|(_ & -> & ->)])])];
    try discriminate Hstatus.
  exists f, (key_of (clock w) (fileName f)). eexists _, _.
  split; [exact Hex|]. split; [reflexivity|].
  split; [exact (listDocuments_answer headers' _ Hfault)|].
  cbn [listed res_body listing bucket] in *.
  rewrite take_ge.
  2:{ rewrite length_map.
      pose proof (length_entries_under "documents/"
        (<[key_of (clock w) (fileName f) := uploaded_object (clock w) f]> (bucket w))).
      lia. }
  apply list_elem_of_fmap.
  exists (item_of (key_of (clock w) (fileName f), uploaded_object (clock w) f)).
  split.
  - unfold document_of. rewrite pop_split_after_last. reflexivity.
  - apply list_elem_of_fmap. eexists. split; [reflexivity|].
    apply list_elem_of_filter. split; [apply key_of_prefix|].
    apply elem_of_map_to_list, lookup_insert_eq.
Qed.

End Listing.

(** ** The further properties on sample requests *)

Lemma download_only_reads_witness :
  bucket report_download.2 = bucket report_upload.2 /\
  clock report_download.2 = clock report_upload.2 /\
  sent report_download.2 = sent report_upload.2 ++
    [GetObjectCommand "documents/1700000000000-report.pdf"].
Proof.
  apply (@download_only_reads report_runtime
           (download_event "documents/1700000000000-report.pdf") getCorsHeaders
           report_upload.2 report_download.1 report_download.2).
  vm_compute. reflexivity.
Defined.

Lemma download_serves_stored_object_witness :
  exists r w',
    @downloadFile report_runtime (download_event "documents/1-scan.png")
      getCorsHeaders camel_world = (Returned r, w') /\
    statusCode r = 200%Z /\
    downloaded_content r = Some ["M"; "a"; "n"]%byte /\
    res_isBase64Encoded r = Some true /\
    res_body r = Raw "TWFu" /\
    res_headers r !! "Content-Type" = Some "image/png" /\
    res_headers r !! "Content-Length" = Some "3".
Proof.
  destruct (@download_serves_stored_object report_runtime
    (download_event "documents/1-scan.png") getCorsHeaders camel_world
    "documents/1-scan.png" camel_object)
    as (r & w' & Hdown & Hstatus & Hcontent & _ & Hbin).
  - reflexivity.
  - discriminate.
  - reflexivity.
  - reflexivity.
  - destruct Hbin as (Hflag & Hbody & Htype & Hlen); [discriminate|].
    exists r, w'. split; [exact Hdown|]. split; [exact Hstatus|].
    split; [exact Hcontent|]. split; [exact Hflag|]. split; [exact Hbody|].
    split; [exact Htype|exact Hlen].
Defined.

Lemma upload_all_or_nothing_witness :
  exists r w',
    @uploadFile (sample_runtime [sample_exe]) upload_event getCorsHeaders
      empty_world = (Returned r, w') /\
    (statusCode r = 200%Z /\
     (exists f object,
        @extractFileFromForm (sample_runtime [sample_exe]) upload_event = Returned f /\
        returned_key r = Some (key_of (clock empty_world) (fileName f)) /\
        obj_Body object = fileData f /\
        bucket w' = <[key_of (clock empty_world) (fileName f) := object]>
                      (bucket empty_world)) \/
     (statusCode r = 400%Z \/ statusCode r = 500%Z) /\
     bucket w' = bucket empty_world).
Proof.
  eexists _, _. split; [reflexivity|].
  apply (@upload_all_or_nothing (sample_runtime [sample_exe]) upload_event
           getCorsHeaders empty_world).
  reflexivity.
Defined.

Lemma upload_store_failure_is_500_witness :
  let rt := faulty_runtime AccessDenied [sample_pdf] in
  let f := {| fileData := ["%"; "P"; "D"; "F"; "-"; "1"; "."; "4"]%byte;
              fileName := "report.pdf"; fileType := "application/octet-stream";
              documentValueCode := ""; documentValueTypeCode := "" |} in
  exists r w',
    @uploadFile rt upload_event getCorsHeaders empty_world = (Returned r, w') /\
    statusCode r = 500%Z /\
    res_body r = JSON_stringify (JObj
      [ ("error", JStr "Failed to upload file");
        ("details", JStr "Access Denied") ]) /\
    bucket w' = bucket empty_world /\
    sent w' = sent empty_world ++ [upload_command (clock empty_world) f].
Proof.
  intros rt f.
  apply (@upload_store_failure_is_500 rt upload_event getCorsHeaders empty_world
           f AccessDenied).
  - reflexivity.
  - unfold allowed_types. apply list_elem_of_further, list_elem_of_here.
  - reflexivity.
Defined.

Lemma handler_never_throws_witness :
  (exists r w',
     @handler report_runtime (WithHeaders list_event) empty_world =
       (Returned r, w')) /\
  (exists r w',
     @handler report_runtime (WithoutHeaders js_null "POST" None None false)
       empty_world = (Returned r, w')).
Proof.
  split.
  - apply (proj2 (@handler_never_throws report_runtime (WithHeaders list_event)
                    empty_world)).
    intros event [= <-]. right. vm_compute. discriminate.
  - apply (proj2 (@handler_never_throws report_runtime
                    (WithoutHeaders js_null "POST" None None false) empty_world)).
    intros event [=].
Defined.

Lemma handler_responses_carry_cors_witness :
  exists r w',
    @handler report_runtime
      (WithHeaders (download_event "documents/1-scan.png")) camel_world =
      (Returned r, w') /\
    getCorsHeaders ⊆ res_headers r.
Proof.
  eexists _, _. split; [reflexivity|].
  apply (@handler_responses_carry_cors report_runtime
           (WithHeaders (download_event "documents/1-scan.png")) camel_world
           _ _ eq_refl).
Defined.

Lemma handler_internal_error_causes_witness :
  let rt := faulty_runtime AccessDenied [] in
  exists r w',
    @handler rt (WithHeaders list_event) empty_world = (Returned r, w') /\
    statusCode r = 500%Z /\
    (res_body r = JSON_stringify (JObj
       [ ("error", JStr "Internal server error");
         ("details", JStr "Access Denied") ]) <->
     (exists missing method query text base64,
        WithHeaders list_event =
          WithoutHeaders missing method query text base64 /\
        err_message (read_TypeError missing "content-type") = "Access Denied") \/
     (exists missing,
        WithHeaders list_event = NoEvent missing /\
        err_message (read_TypeError missing "httpMethod") = "Access Denied") \/
     (exists event error,
        WithHeaders list_event = WithHeaders event /\
        httpMethod event <> "OPTIONS" /\
        action_param event = Some "listDocuments" /\
        @s3_fault rt (ListObjectsV2Command "documents/") = Some error /\
        err_message error = "Access Denied")).
Proof.
  intros rt. eexists _, _. split; [reflexivity|]. split; [reflexivity|].
  eapply (@handler_internal_error_causes rt (WithHeaders list_event) empty_world).
  reflexivity.
Defined.

Lemma handler_sends_at_most_one_command_witness :
  clock report_upload.2 = clock empty_world /\
  (sent report_upload.2 = sent empty_world \/
   exists c, sent report_upload.2 = sent empty_world ++ [c]) /\
  (bucket report_upload.2 <> bucket empty_world ->
   exists event,
     WithHeaders upload_event = WithHeaders event /\
     action_param event = Some "uploadFile" /\
     exists r, report_upload.1 = Returned r /\ statusCode r = 200%Z).
Proof.
  apply (@handler_sends_at_most_one_command report_runtime
           (WithHeaders upload_event) empty_world report_upload.1 report_upload.2).
  vm_compute. reflexivity.
Defined.

Lemma decoder_first_settlement_wins_witness :
  let pre := [EvFile 0 "file" "a.pdf" "7bit" "application/pdf";
              EvData 0 ["h"; "i"]%byte] in
  let rest := [EvEnd 0; EvFinish] in
  d_promise (run_handlers (pre ++ EvError AccessDenied :: rest)) =
    d_promise (run_handlers (pre ++ [EvError AccessDenied])) /\
  d_promise (run_handlers (pre ++ [EvError AccessDenied])) <> Pending /\
  (forall error, EvError AccessDenied = EvError error ->
     d_promise (run_handlers (pre ++ EvError AccessDenied :: rest)) = Thrown error).
Proof.
  intros pre rest.
  apply (decoder_first_settlement_wins pre (EvError AccessDenied) rest).
  - repeat constructor.
  - reflexivity.
Defined.

Lemma parse_error_is_500_witness :
  let rt := trace_runtime
    [EvField "documentValueCode" "INV001";
     EvError (new_Error "Unexpected end of form"); EvFinish] in
  @extractFileFromForm rt upload_event =
    Thrown (new_Error "Unexpected end of form") /\
  exists r,
    @uploadFile rt upload_event getCorsHeaders empty_world = (Returned r, empty_world) /\
    statusCode r = 500%Z /\
    res_body r = JSON_stringify (JObj
      [ ("error", JStr "Failed to upload file");
        ("details", JStr "Unexpected end of form") ]).
Proof.
  intros rt.
  apply (@parse_error_is_500 rt upload_event getCorsHeaders empty_world
           [EvField "documentValueCode" "INV001"]
           (new_Error "Unexpected end of form") [EvFinish]).
  - do 3 eexists. split; [reflexivity|]. split; [reflexivity|].
    split; [reflexivity|]. split; reflexivity.
  - repeat constructor.
  - repeat constructor.
Defined.

Lemma decode_pending_without_finish_witness :
  let trace := [EvFile 0 "file" "a.pdf" "7bit" "application/pdf"; EvEnd 0] in
  let rt := trace_runtime trace in
  (@extractFileFromForm rt upload_event = Pending <->
   Forall (fun ev => is_settling_event ev = false) trace) /\
  (Forall (fun ev => is_settling_event ev = false) trace ->
   @uploadFile rt upload_event getCorsHeaders empty_world = (Pending, empty_world)).
Proof.
  intros trace rt.
  apply (@decode_pending_without_finish rt upload_event getCorsHeaders
           empty_world trace).
  do 3 eexists. split; [reflexivity|]. split; [reflexivity|].
  split; [reflexivity|]. split; reflexivity.
Defined.

Lemma decoder_last_field_value_wins_witness :
  let pre := [ EvField "documentValueCode" "OLD";
               EvFile 0 "file" "report.pdf" "7bit" "application/pdf";
               EvField "comment" "x";
               EvField "documentValueCode" "NEW";
               EvData 0 ["%"; "P"; "D"; "F"]%byte;
               EvEnd 0 ] in
  let f := {| fileData := ["%"; "P"; "D"; "F"]%byte;
              fileName := "report.pdf"; fileType := "application/pdf";
              documentValueCode := "NEW"; documentValueTypeCode := "" |} in
  file_then_fields_trace = pre ++ [EvFinish] /\
  @extractFileFromForm (trace_runtime file_then_fields_trace) upload_event =
    Returned f /\
  documentValueCode f =
    default "" (last (field_values "documentValueCode" pre)) /\
  documentValueTypeCode f =
    default "" (last (field_values "documentValueTypeCode" pre)).
Proof.
  intros pre f. split; [reflexivity|]. split; [reflexivity|].
  apply (@decoder_last_field_value_wins (trace_runtime file_then_fields_trace)
           upload_event pre [] f).
  - do 3 eexists. split; [reflexivity|]. split; [reflexivity|].
    split; [reflexivity|]. split; reflexivity.
  - repeat constructor.
  - reflexivity.
Defined.

(** C3, as stated, fails: of two file parts the decoder resolves with the
    second, not the first, in filename, declared type and bytes. *)
Lemma second_file_replaces_first :
  let rt := trace_runtime two_files_trace in
  @emits rt upload_event two_files_trace /\
  head (file_events two_files_trace) = Some ("report.pdf", "application/pdf") /\
  delivered 0 two_files_trace = [["%"; "P"; "D"; "F"]%byte] /\
  exists f,
    @extractFileFromForm rt upload_event = Returned f /\
    file_of_form f = ("notes.TXT", "text/plain", ["h"; "i"]%byte) /\
    head (file_events two_files_trace) <> Some (fileName f, fileType f) /\
    fileData f <> concat (delivered 0 two_files_trace).
Proof.
  intros rt. split.
  { do 3 eexists. split; [reflexivity|]. split; [reflexivity|].
    split; [reflexivity|]. split; reflexivity. }
  split; [reflexivity|]. split; [reflexivity|].
  eexists. split; [reflexivity|]. split; [reflexivity|].
  split; discriminate.
Qed.

Lemma decoder_keeps_last_file_witness :
  let a := [EvFile 0 "file" "report.pdf" "7bit" "application/pdf"] in
  let b := [EvData 0 ["%"; "P"; "D"; "F"]%byte; EvData 1 ["h"; "i"]%byte;
            EvEnd 0] in
  two_files_trace =
    (a ++ EvFile 1 "file" "notes.TXT" "7bit" "text/plain" :: b ++ EvEnd 1 :: [])
      ++ [EvFinish] /\
  exists f,
    @extractFileFromForm (trace_runtime two_files_trace) upload_event =
      Returned f /\
    fileData f = concat (delivered 1 b) /\
    last (file_events
      (a ++ EvFile 1 "file" "notes.TXT" "7bit" "text/plain" ::
         b ++ EvEnd 1 :: [])) = Some (fileName f, fileType f) /\
    (Forall (fun ev => is_file_event ev = false) (b ++ []) ->
     fileName f = "notes.TXT" /\ fileType f = "text/plain").
Proof.
  intros a b. split; [reflexivity|].
  apply (@decoder_keeps_last_file (trace_runtime two_files_trace) upload_event
           a 1 "file" "notes.TXT" "7bit" "text/plain" b [] []).
  - do 3 eexists. split; [reflexivity|]. split; [reflexivity|].
    split; [reflexivity|]. split; reflexivity.
  - repeat constructor.
  - repeat constructor.
  - constructor.
Defined.

Lemma decode_setup_failure_is_500_witness :
  @uploadFile (throwing_runtime (new_Error "Multipart: Boundary not found"))
    upload_event getCorsHeaders empty_world =
    (Returned (upload_failed getCorsHeaders
       (new_Error "Multipart: Boundary not found")), empty_world) /\
  @uploadFile report_runtime null_body_event getCorsHeaders empty_world =
    (Returned (upload_failed getCorsHeaders Buffer_from_TypeError), empty_world).
Proof.
  split.
  - apply (proj1 (@decode_setup_failure_is_500
      (throwing_runtime (new_Error "Multipart: Boundary not found"))
      upload_event getCorsHeaders empty_world "multipart/form-data; boundary=x"
      eq_refl eq_refl)).
    reflexivity.
  - eapply (proj1 (proj2 (@decode_setup_failure_is_500 report_runtime
      null_body_event getCorsHeaders empty_world "multipart/form-data; boundary=x"
      eq_refl eq_refl))); reflexivity.
Defined.

Lemma decode_succeeds_iff_file_part_witness :
  let parts := [sample_code; FilePart "file" "empty.txt" "7bit" "text/plain" []] in
  let rt := sample_runtime parts in
  ((exists f, @extractFileFromForm rt upload_event = Returned f) <->
   files_of parts <> []) /\
  (forall f, @extractFileFromForm rt upload_event = Returned f ->
     last (files_of parts) = Some (file_of_form f)) /\
  (forall filename mimetype,
     last (files_of parts) = Some (filename, mimetype, []) ->
     exists f, @extractFileFromForm rt upload_event = Returned f /\ fileData f = []).
Proof.
  intros parts rt.
  apply (@decode_succeeds_iff_file_part rt upload_event parts).
  apply sample_emits.
Defined.

Lemma base64_transport_is_transparent_witness :
  @extractFileFromForm echo_runtime (base64_event "JVBERi0xLjQ=") =
  @extractFileFromForm echo_runtime (plain_event "%PDF-1.4").
Proof.
  apply (@base64_transport_is_transparent echo_runtime
           (base64_event "JVBERi0xLjQ=") (plain_event "%PDF-1.4")
           ["%"; "P"; "D"; "F"; "-"; "1"; "."; "4"]%byte); reflexivity.
Defined.

Lemma key_of_injective_witness :
  key_of 1700000000000 "report.pdf" = "documents/1700000000000-report.pdf" /\
  (1700000000000%N = 1700000000000%N /\ "report.pdf" = "report.pdf").
Proof.
  split; [vm_compute; reflexivity|].
  apply (key_of_injective 1700000000000 "report.pdf" 1700000000000 "report.pdf").
  reflexivity.
Defined.

Lemma uploaded_display_name_witness :
  Js.pop (Js.split "/" (key_of 1700000000000 "report.pdf")) =
  pretty 1700000000000%N +:+ "-" +:+ "report.pdf".
Proof. apply (uploaded_display_name 1700000000000 "report.pdf"). reflexivity. Defined.

Lemma list_answer_witness :
  exists r w',
    @listDocuments report_runtime getCorsHeaders camel_world = (Returned r, w') /\
    statusCode r = 200%Z /\
    length (listed r) <= 1000 /\
    JObj [ ("key", JStr "documents/1-scan.png");
           ("fileName", JStr "1-scan.png");
           ("size", JNum 3);
           ("lastModified", JDate 1700000000000) ] ∈ listed r.
Proof.
  destruct (@list_answer report_runtime getCorsHeaders camel_world eq_refl)
    as (r & w' & Hlist & Hstatus & _ & _ & _ & Hlen & _ & Hall).
  exists r, w'. split; [exact Hlist|]. split; [exact Hstatus|].
  split; [exact Hlen|].
  apply (Hall ltac:(vm_compute; lia) "documents/1-scan.png" camel_object);
    reflexivity.
Defined.

Lemma uploaded_document_is_listed_witness :
  exists f key r' w2,
    @extractFileFromForm report_runtime upload_event = Returned f /\
    (returned report_upload.1 ≫= returned_key) = Some key /\
    @listDocuments report_runtime getCorsHeaders report_upload.2 = (Returned r', w2) /\
    JObj [ ("key", JStr key);
           ("fileName", JStr (after_last "/" key));
           ("size", JNum (N.of_nat (length (fileData f))));
           ("lastModified", JDate (clock empty_world)) ] ∈ listed r'.
Proof.
  destruct (@uploaded_document_is_listed report_runtime upload_event
    getCorsHeaders empty_world
    (upload_succeeded getCorsHeaders "documents/1700000000000-report.pdf"
       {| fileData := ["%"; "P"; "D"; "F"; "-"; "1"; "."; "4"]%byte;
          fileName := "report.pdf"; fileType := "application/octet-stream";
          documentValueCode := "INV001"; documentValueTypeCode := "" |})
    report_upload.2 getCorsHeaders)
    as (f & key & r' & w2 & Hex & Hkey & Hlist & Hin).
  - vm_compute. reflexivity.
  - reflexivity.
  - reflexivity.
  - vm_compute. lia.
  - exists f, key, r', w2. split; [exact Hex|]. split; [|split; [exact Hlist|exact Hin]].
    rewrite <- Hkey. vm_compute. reflexivity.
Defined.

(** ** Uploads and the documents already stored *)

Section Earlier.
Context `{!Runtime}.

(** X22: an upload never removes or replaces a document uploaded at another
    time: whatever the upload's outcome, the object under a key made at
    another [Date.now()] is still there afterwards. *)
Theorem upload_keeps_earlier_documents event headers w o w' now name object :
  uploadFile event headers w = (o, w') ->
  bucket w !! key_of now name = Some object ->
  now <> clock w ->
  bucket w' !! key_of now name = Some object.
Proof.
  intros Hup Hobj Hnow.
  destruct (extractFileFromForm event) as [f|error|] eqn:Hex.
  - destruct (Js.arr_includes ALLOWED_EXTENSIONS (fileExtension_of (fileName f)))
      eqn:Hext.
    + destruct (s3_fault (upload_command (clock w) f)) as [error|] eqn:Hfault.
      * rewrite (uploadFile_store_fault _ _ _ _ _ Hex Hext Hfault) in Hup.
        injection Hup as _ <-. exact Hobj.
      * rewrite (uploadFile_stored _ _ _ _ Hex Hext Hfault) in Hup.
        injection Hup as _ <-. cbn [bucket]. rewrite lookup_insert_ne; [exact Hobj|].
        intros Heq. apply key_of_inj in Heq as [Heq _]. congruence.
    + rewrite (uploadFile_rejected _ _ _ _ Hex Hext) in Hup.
      injection Hup as _ <-. exact Hobj.
  - rewrite (uploadFile_thrown _ _ _ _ Hex) in Hup. injection Hup as _ <-. exact Hobj.
  - rewrite (uploadFile_pending _ _ _ Hex) in Hup. injection Hup as _ <-. exact Hobj.
Qed.

End Earlier.

Lemma upload_keeps_earlier_documents_witness :
  let w := {| bucket := bucket report_upload.2; clock := 1700000000555;
              sent := [] |} in
  let up := @uploadFile report_runtime upload_event getCorsHeaders w in
  bucket up.2 !! key_of 1700000000000 "report.pdf" =
  Some (@uploaded_object report_runtime 1700000000000
    {| fileData := ["%"; "P"; "D"; "F"; "-"; "1"; "."; "4"]%byte;
       fileName := "report.pdf"; fileType := "application/octet-stream";
       documentValueCode := "INV001"; documentValueTypeCode := "" |}).
Proof.
  intros w up.
  apply (@upload_keeps_earlier_documents report_runtime upload_event
           getCorsHeaders w up.1 up.2 1700000000000 "report.pdf").
  - vm_compute. reflexivity.
  - vm_compute. reflexivity.
  - discriminate.
Defined.
